(** * Difference of DEMs (DoD) workflow: [DoD_tool.py]

    A shallow embedding of [DoDfin] and of the raster and table tools it
    calls.  A raster is a grid of cells, a cell is [None] (NoData) or carries
    a value; elevations and statistics are rationals, masks and zones are
    integers.  The geoprocessing workspace is a finite map from artifact
    names to rasters and tables, threaded through the run together with the
    [overwriteOutput] flag of the environment. *)

From Stdlib Require Import QArith ZArith Lia Lqa Ascii String.
From stdpp Require Import gmap strings list fin_maps sorting.

Local Open Scope Z_scope.

(** ** Rasters *)

(** A raster band: rows of cells, [None] being NoData.  Both input rasters
    share their origin, so cell [(i, j)] of one lies over cell [(i, j)] of
    the other. *)
Abbreviation Grid A := (list (list (option A))).

(** The cell at row [i], column [j]; [None] outside the extent. *)
Definition cell_at {A} (g : Grid A) (i j : nat) : option (option A) :=
  row ← g !! i; row !! j.

(** The value read at [(i, j)]: NoData both at a NoData cell and outside the
    extent of the raster. *)
Definition value_at {A} (g : Grid A) (i j : nat) : option A :=
  mjoin (cell_at g i j).

(** A local tool with one raster input works cell by cell. *)
Definition local1 {A B} (f : option A → option B) (g : Grid A) : Grid B :=
  (λ row : list (option A), f <$> row) <$> g.

(** A local tool with two raster inputs works on the cells both rasters
    have (the default extent is the intersection of the inputs). *)
Definition local2 {A B C} (f : option A → option B → option C)
    (g : Grid A) (h : Grid B) : Grid C :=
  zip_with (zip_with f) g h.

(** ** Map algebra, one cell at a time *)

Definition Qltb (x y : Q) : bool := negb (Qle_bool y x).

Definition bool_cell (b : bool) : Z := if b then 1 else 0.

(** [a - b]: NoData when either operand is. *)
Definition minus_cell (a b : option Q) : option Q :=
  match a, b with
  | Some x, Some y => Some (x - y)%Q
  | _, _ => None
  end.

(** [a > m] against a constant: 1, 0, or NoData on a NoData cell. *)
Definition gt_cell (m : Q) (a : option Q) : option Z :=
  match a with
  | Some x => Some (bool_cell (Qltb m x))
  | None => None
  end.

(** [a < m] against a constant. *)
Definition lt_cell (m : Q) (a : option Q) : option Z :=
  match a with
  | Some x => Some (bool_cell (Qltb x m))
  | None => None
  end.

(** [a | b]: 1 when an operand is non-zero, 0 when both are zero, NoData
    when an operand is NoData. *)
Definition or_cell (a b : option Z) : option Z :=
  match a, b with
  | Some x, Some y => Some (bool_cell (negb ((x =? 0) && (y =? 0))))
  | _, _ => None
  end.

(** The new value of a remap table entry. *)
Inductive NewValue : Type :=
  | ToNoData
  | ToValue (z : Z).

Fixpoint remap_lookup (t : list (Z * NewValue)) (v : Z) : option NewValue :=
  match t with
  | [] => None
  | (old, new) :: t' => if old =? v then Some new else remap_lookup t' v
  end.

(** [Reclassify] by value: a listed value takes its new value, a value the
    table does not list is kept (missing values default to DATA), NoData
    stays NoData. *)
Definition reclass_cell (t : list (Z * NewValue)) (a : option Z) : option Z :=
  match a with
  | None => None
  | Some v =>
      match remap_lookup t v with
      | Some ToNoData => None
      | Some (ToValue z) => Some z
      | None => Some v
      end
  end.

(** [b * d], an integer raster times a floating-point one. *)
Definition times_cell (b : option Z) (d : option Q) : option Q :=
  match b, d with
  | Some k, Some x => Some (inject_Z k * x)%Q
  | _, _ => None
  end.

(** [Con(c, t, f)] with constant branches: [t] where the condition is
    non-zero, [f] where it is zero, NoData where the condition is NoData. *)
Definition con_cell (t f : Z) (c : option Z) : option Z :=
  match c with
  | Some v => Some (if v =? 0 then f else t)
  | None => None
  end.

(** ** Map algebra on rasters *)

Definition Minus (a b : Grid Q) : Grid Q := local2 minus_cell a b.
Definition GreaterThan (a : Grid Q) (m : Q) : Grid Z := local1 (gt_cell m) a.
Definition LessThan (a : Grid Q) (m : Q) : Grid Z := local1 (lt_cell m) a.
Definition BooleanOr (a b : Grid Z) : Grid Z := local2 or_cell a b.
Definition Reclassify (a : Grid Z) (t : list (Z * NewValue)) : Grid Z :=
  local1 (reclass_cell t) a.
Definition Times (b : Grid Z) (d : Grid Q) : Grid Q := local2 times_cell b d.
Definition Con (c : Grid Z) (t f : Z) : Grid Z := local1 (con_cell t f) c.

(** ** The five raster stages of [DoDfin] *)

(** Step 1: [dod = Raster(dem_later) - Raster(dem_earlier)]. *)
Definition dod (later earlier : Grid Q) : Grid Q := Minus later earlier.

(** Step 2: [dod_mask = (dod > float(mLoD)) | (dod < -float(mLoD))]. *)
Definition dod_mask (d : Grid Q) (mLoD : Q) : Grid Z :=
  BooleanOr (GreaterThan d mLoD) (LessThan d (- mLoD)%Q).

(** Step 3: [Reclassify(dod_mask, "Value", RemapValue([[0, "NODATA"], [1, 1]]))]. *)
Definition remap : list (Z * NewValue) := [(0, ToNoData); (1, ToValue 1)].
Definition dod_binary (mask : Grid Z) : Grid Z := Reclassify mask remap.

(** Step 4: [dod_filtered = dod_binary * dod]. *)
Definition dod_filtered (binary : Grid Z) (d : Grid Q) : Grid Q := Times binary d.

(** Step 5: [erosion = Con(dod_filtered < 0, 1, 0)]. *)
Definition erosion (f : Grid Q) : Grid Z := Con (LessThan f 0%Q) 1 0.

(** The same stages on one cell. *)
Definition mask_cell (mLoD : Q) (d : option Q) : option Z :=
  or_cell (gt_cell mLoD d) (lt_cell (- mLoD)%Q d).
Definition binary_cell (m : option Z) : option Z := reclass_cell remap m.
Definition erosion_cell (f : option Q) : option Z :=
  con_cell 1 0 (lt_cell 0%Q f).

(** The filtered value of a cell of the difference raster: the difference
    itself where the mask is 1, NoData elsewhere. *)
Definition filtered_cell (m : Q) (c : option Q) : option Q :=
  times_cell (binary_cell (mask_cell m c)) c.

(** ** Tables of zonal statistics *)

(** One record of the statistics table, with the zone value and the
    statistics of type ALL that are rational functions of the cell values
    (the standard deviation is left out).  [user] holds the fields added to
    the table afterwards, by name; a field that was added and not yet
    calculated is null ([None]). *)
Record StatRow : Type := mkRow {
  Value : Z;
  COUNT : Z;
  AREA : Q;
  MIN : Q;
  MAX : Q;
  RANGE : Q;
  MEAN : Q;
  SUM : Q;
  MEDIAN : Q;
  user : gmap string (option Q)
}.

(** A table: the statistics columns it has, the fields added by the user,
    and its records. *)
Record Table : Type := mkTable {
  columns : list string;
  user_fields : list string;
  rows : list StatRow
}.

(** The fields an expression may read. *)
Definition fields (t : Table) : list string :=
  "Value"%string :: columns t ++ user_fields t.

(** The [statistics_type] argument of the zonal tools, for the statistics a
    record carries. *)
Module statistics_type.
Inductive t : Type :=
  | ALL
  | MEAN
  | MAXIMUM
  | MEDIAN
  | MINIMUM
  | RANGE
  | SUM
  | MIN_MAX
  | MIN_MAX_MEAN.
End statistics_type.

(** The statistics columns of the table: the count and the area always, the
    others as asked for. *)
Definition statistic_columns (s : statistics_type.t) : list string :=
  app (["COUNT"; "AREA"]%string)
    match s with
    | statistics_type.ALL => ["MIN"; "MAX"; "RANGE"; "MEAN"; "SUM"; "MEDIAN"]
    | statistics_type.MEAN => ["MEAN"]
    | statistics_type.MAXIMUM => ["MAX"]
    | statistics_type.MEDIAN => ["MEDIAN"]
    | statistics_type.MINIMUM => ["MIN"]
    | statistics_type.RANGE => ["RANGE"]
    | statistics_type.SUM => ["SUM"]
    | statistics_type.MIN_MAX => ["MIN"; "MAX"]
    | statistics_type.MIN_MAX_MEAN => ["MIN"; "MAX"; "MEAN"]
    end%string.

(** The [ignore_nodata] argument of the zonal tools. *)
Inductive IgnoreNoData : Type :=
  | DATA
  | NODATA.

(** The zone raster laid over the value raster: the pairs of cells at the
    positions both rasters have. *)
Definition overlay (zones : Grid Z) (values : Grid Q) : list (option Z * option Q) :=
  mjoin (zip_with zip zones values).

(** The zone values that occur, each once, in ascending order. *)
Definition zone_ids (ps : list (option Z * option Q)) : list Z :=
  merge_sort Z.le (remove_dups (omap fst ps)).

(** The value cell of [p] when [p] lies in zone [z]. *)
Definition zone_value (z : Z) (p : option Z * option Q) : option (option Q) :=
  match p.1 with
  | Some z' => if z =? z' then Some p.2 else None
  | None => None
  end.

Definition zone_cells (z : Z) (ps : list (option Z * option Q)) : list (option Q) :=
  omap (zone_value z) ps.

(** The values a zone is summarised over: with [DATA] the NoData cells of
    the value raster are skipped, with [NODATA] one of them voids the zone. *)
Definition zone_data (policy : IgnoreNoData) (cs : list (option Q)) : list Q :=
  match policy with
  | DATA => omap id cs
  | NODATA =>
      if forallb (λ c : option Q, bool_decide (is_Some c)) cs then omap id cs else []
  end.

Definition Qsum (vs : list Q) : Q := foldr Qplus 0%Q vs.
Definition Qmin2 (x y : Q) : Q := if Qle_bool x y then x else y.
Definition Qmax2 (x y : Q) : Q := if Qle_bool x y then y else x.

Section Engine.

(** The area of one cell of the analysis grid, and the median the zonal
    tool computes over the values of a zone. *)
Variable cell_area : Q.
Variable median : list Q → Q.

(** The record of zone [z] over the values [vs] (statistics type ALL); a
    zone without values has no record. *)
Definition zonal_row (z : Z) (vs : list Q) : option StatRow :=
  match vs with
  | [] => None
  | v :: vs' =>
      let n := Z.of_nat (length vs) in
      let lo := foldr Qmin2 v vs' in
      let hi := foldr Qmax2 v vs' in
      Some {| Value := z;
              COUNT := n;
              AREA := (inject_Z n * cell_area)%Q;
              MIN := lo;
              MAX := hi;
              RANGE := (hi - lo)%Q;
              MEAN := (Qsum vs / inject_Z n)%Q;
              SUM := Qsum vs;
              MEDIAN := median vs;
              user := ∅ |}
  end.

Definition zonal_rows (policy : IgnoreNoData)
    (ps : list (option Z * option Q)) : list StatRow :=
  omap (λ z, zonal_row z (zone_data policy (zone_cells z ps))) (zone_ids ps).

Definition zonal_table (zones : Grid Z) (values : Grid Q)
    (policy : IgnoreNoData) (statistics : statistics_type.t) : Table :=
  {| columns := statistic_columns statistics;
     user_fields := [];
     rows := zonal_rows policy (overlay zones values) |}.

End Engine.

(** Adding a field: every record gets it, null. *)
Definition add_field (field_name : string) (t : Table) : Table :=
  if bool_decide (field_name ∈ user_fields t) then t
  else {| columns := columns t;
          user_fields := user_fields t ++ [field_name];
          rows := (λ r, {| Value := Value r; COUNT := COUNT r; AREA := AREA r;
                           MIN := MIN r; MAX := MAX r; RANGE := RANGE r;
                           MEAN := MEAN r; SUM := SUM r; MEDIAN := MEDIAN r;
                           user := <[field_name := None]> (user r) |}) <$> rows t |}.

(** Calculating a field: the expression is evaluated once on every record. *)
Definition calculate_field (field : string) (expression : StatRow → Q)
    (t : Table) : Table :=
  {| columns := columns t;
     user_fields := user_fields t;
     rows := (λ r, {| Value := Value r; COUNT := COUNT r; AREA := AREA r;
                      MIN := MIN r; MAX := MAX r; RANGE := RANGE r;
                      MEAN := MEAN r; SUM := SUM r; MEDIAN := MEDIAN r;
                      user := <[field := Some (expression r)]> (user r) |}) <$> rows t |}.

(** A field expression: the fields it reads and its value on a record. *)
Record Expression : Type := mkExpression {
  reads : list string;
  value : StatRow → Q
}.

(** The expression ["!AREA! * !MEDIAN!"]. *)
Definition area_times_median (r : StatRow) : Q := (AREA r * MEDIAN r)%Q.

Definition volume_expression : Expression :=
  {| reads := ["AREA"; "MEDIAN"]%string; value := area_times_median |}.

(** The value of the [Volume] field of a record. *)
Definition volume_of (r : StatRow) : option (option Q) := user r !! "Volume"%string.

(** A record of the zonal table after [Volume] was added and calculated. *)
Definition with_volume (r : StatRow) : StatRow :=
  {| Value := Value r; COUNT := COUNT r; AREA := AREA r; MIN := MIN r;
     MAX := MAX r; RANGE := RANGE r; MEAN := MEAN r; SUM := SUM r;
     MEDIAN := MEDIAN r;
     user := <["Volume"%string := Some (AREA r * MEDIAN r)%Q]>
               (<["Volume"%string := None]> (user r)) |}.

(** ** The workspace and the tools that read and write it *)

Inductive Artifact : Type :=
  | FloatRaster (g : Grid Q)
  | IntRaster (g : Grid Z)
  | TableData (t : Table).

(** The geoprocessing environment: [arcpy.env.overwriteOutput] and the
    contents of the workspace by name.  The other settings of [arcpy.env]
    (extent, mask, cell size, snap raster) are never set by [DoDfin] and
    are taken at their defaults throughout. *)
Record Env : Type := mkEnv {
  overwriteOutput : bool;
  workspace : gmap string Artifact
}.

Inductive Error : Type :=
  | DoesNotExist (name : string)
  | NotARaster (name : string)
  | NotATable (name : string)
  | AlreadyExists (name : string)
  | NoSuchField (name field : string)
  | ValueError (text : string).

Inductive Outcome (A : Type) : Type :=
  | Done (a : A) (e : Env)
  | Failed (err : Error) (e : Env).
Arguments Done {A} a e.
Arguments Failed {A} err e.

(** A tool call: it runs in an environment and either returns a value or
    fails with an error, leaving the environment as it is by then. *)
Definition Tool (A : Type) : Type := Env → Outcome A.

Definition tool_ret {A} (a : A) : Tool A := λ e, Done a e.

Definition tool_bind {A B} (k : A → Tool B) (m : Tool A) : Tool B := λ e,
  match m e with
  | Done a e' => k a e'
  | Failed err e' => Failed err e'
  end.

(** Raising an error. *)
Definition raise {A} (err : Error) : Tool A := λ e, Failed err e.

#[export] Instance Tool_ret : MRet Tool := @tool_ret.
#[export] Instance Tool_bind : MBind Tool := @tool_bind.

(** [arcpy.env.overwriteOutput = flag]. *)
Definition set_overwriteOutput (flag : bool) : Tool unit := λ e,
  Done tt {| overwriteOutput := flag; workspace := workspace e |}.

(** Writing an artifact under a name: refused when the name is taken and
    outputs may not be overwritten. *)
Definition write (name : string) (a : Artifact) : Tool unit := λ e,
  if negb (overwriteOutput e) && bool_decide (is_Some (workspace e !! name))
  then Failed (AlreadyExists name) e
  else Done tt {| overwriteOutput := overwriteOutput e;
                  workspace := <[name := a]> (workspace e) |}.

(** [Raster(name)]: the raster stored under [name]; the values of an
    integer raster are read as numbers. *)
Definition raster_in (w : gmap string Artifact) (name : string) : Error + Grid Q :=
  match w !! name with
  | Some (FloatRaster g) => inr g
  | Some (IntRaster g) => inr (local1 (λ c : option Z, inject_Z <$> c) g)
  | Some (TableData _) => inl (NotARaster name)
  | None => inl (DoesNotExist name)
  end.

Definition Raster (name : string) : Tool (Grid Q) := λ e,
  match raster_in (workspace e) name with
  | inr g => Done g e
  | inl err => Failed err e
  end.

(** [raster.save(name)]. *)
Definition save_float (g : Grid Q) (name : string) : Tool unit :=
  write name (FloatRaster g).
Definition save_int (g : Grid Z) (name : string) : Tool unit :=
  write name (IntRaster g).

Definition read_table (name : string) : Tool Table := λ e,
  match workspace e !! name with
  | Some (TableData t) => Done t e
  | Some _ => Failed (NotATable name) e
  | None => Failed (DoesNotExist name) e
  end.

(** [arcpy.management.AddField(in_table, field_name, "DOUBLE")]. *)
Definition AddField (in_table field_name : string) : Tool unit :=
  t ← read_table in_table;
  write in_table (TableData (add_field field_name t)).

(** The first field an expression reads that the table does not have. *)
Definition missing_field (t : Table) (expression : Expression) : option string :=
  head (List.filter (λ f, negb (bool_decide (f ∈ fields t))) (reads expression)).

(** [arcpy.management.CalculateField(in_table, field, expression)]: the
    field and the fields the expression reads have to exist. *)
Definition CalculateField (in_table field : string)
    (expression : Expression) : Tool unit :=
  t ← read_table in_table;
  if bool_decide (field ∈ user_fields t)
  then match missing_field t expression with
       | None => write in_table (TableData (calculate_field field (value expression) t))
       | Some f => raise (NoSuchField in_table f)
       end
  else raise (NoSuchField in_table field).

(** A Python argument that is a number or a string. *)
Inductive PyValue : Type :=
  | PyFloat (x : Q)
  | PyStr (s : string).

Section Pipeline.

Variable cell_area : Q.
Variable median : list Q → Q.

(** The number Python reads from a string, [None] for a string that
    [float] rejects. *)
Variable float_of_str : string → option Q.

(** [float(v)]: a number is returned as it is, a string is converted or
    raises [ValueError]. *)
Definition float_value (v : PyValue) : Error + Q :=
  match v with
  | PyFloat x => inr x
  | PyStr s =>
      match float_of_str s with
      | Some x => inr x
      | None => inl (ValueError s)
      end
  end.

Definition float (v : PyValue) : Tool Q := λ e,
  match float_value v with
  | inr x => Done x e
  | inl err => Failed err e
  end.

(** [arcpy.ia.ZonalStatisticsAsTable(in_zone_data, "Value",
    in_value_raster, out_table, ignore_nodata, statistics_type)]: one
    record per zone value of the zone raster. *)
Definition ZonalStatisticsAsTable (in_zone_data : Grid Z)
    (in_value_raster : Grid Q) (out_table : string)
    (ignore_nodata : IgnoreNoData) (statistics : statistics_type.t) : Tool unit :=
  write out_table
    (TableData (zonal_table cell_area median in_zone_data in_value_raster
                  ignore_nodata statistics)).

(** [DoDfin], statement by statement.  The three [CheckOutExtension] calls
    return a status and leave the workspace alone, so they have no
    counterpart here; [float(mLoD)] is evaluated when the threshold is
    first needed, after the raw difference was saved. *)
Definition DoDfin (dem_later dem_earlier : string) (mLoD : PyValue)
    (dod_raw dod_threshold_mask dod_reclass dod_thresholded
       erosion_mask erosion_stats : string) : Tool unit :=
  set_overwriteOutput true;;
  later ← Raster dem_later;
  earlier ← Raster dem_earlier;
  let d := dod later earlier in
  save_float d dod_raw;;
  threshold ← float mLoD;
  let mask := dod_mask d threshold in
  save_int mask dod_threshold_mask;;
  let binary := dod_binary mask in
  save_int binary dod_reclass;;
  let filtered := dod_filtered binary d in
  save_float filtered dod_thresholded;;
  let ero := erosion filtered in
  save_int ero erosion_mask;;
  ZonalStatisticsAsTable ero filtered erosion_stats DATA statistics_type.ALL;;
  AddField erosion_stats "Volume";;
  CalculateField erosion_stats "Volume" volume_expression.

(** The artifacts a run computes from the two elevation rasters. *)
Definition filtered_of (later earlier : Grid Q) (mLoD : Q) : Grid Q :=
  let d := dod later earlier in dod_filtered (dod_binary (dod_mask d mLoD)) d.

Definition erosion_of (later earlier : Grid Q) (mLoD : Q) : Grid Z :=
  erosion (filtered_of later earlier mLoD).

Definition stats_of (later earlier : Grid Q) (mLoD : Q) : Table :=
  calculate_field "Volume" area_times_median
    (add_field "Volume"
       (zonal_table cell_area median (erosion_of later earlier mLoD)
          (filtered_of later earlier mLoD) DATA statistics_type.ALL)).

(** The workspace a run leaves, given the two rasters it read. *)
Definition outputs (later earlier : Grid Q) (mLoD : Q)
    (dod_raw dod_threshold_mask dod_reclass dod_thresholded
       erosion_mask erosion_stats : string)
    (w : gmap string Artifact) : gmap string Artifact :=
  let d := dod later earlier in
  <[erosion_stats := TableData (stats_of later earlier mLoD)]>
    (<[erosion_mask := IntRaster (erosion_of later earlier mLoD)]>
       (<[dod_thresholded := FloatRaster (filtered_of later earlier mLoD)]>
          (<[dod_reclass := IntRaster (dod_binary (dod_mask d mLoD))]>
             (<[dod_threshold_mask := IntRaster (dod_mask d mLoD)]>
                (<[dod_raw := FloatRaster d]> w))))).

End Pipeline.

(** A median for the examples: the lower of the middle values. *)
Fixpoint insert_sorted (x : Q) (l : list Q) : list Q :=
  match l with
  | [] => [x]
  | y :: l' => if Qle_bool x y then x :: l else y :: insert_sorted x l'
  end.

Definition lower_median (vs : list Q) : Q :=
  default 0%Q (foldr insert_sorted [] vs !! ((length vs - 1) / 2)%nat).

(** ** Concrete surveys *)

(** [float] on plain decimal strings: an optional sign, digits, at most one
    point.  The other spellings [float] accepts (exponents, surrounding
    blanks, underscores, inf, nan, digits outside ASCII) are not covered and
    read as rejected; the examples use none of them. *)
Definition digit_of (a : ascii) : option Z :=
  let n := Z.of_nat (nat_of_ascii a) in
  if (48 <=? n) && (n <=? 57) then Some (n - 48) else None.

Fixpoint decimal_digits (s : string) (acc : Z) (scale : positive)
    (point seen : bool) : option Q :=
  match s with
  | EmptyString => if seen then Some (acc # scale) else None
  | String a s' =>
      match digit_of a with
      | Some d =>
          decimal_digits s' (10 * acc + d)
            (if point then 10 * scale else scale)%positive point true
      | None =>
          if Ascii.eqb a "." && negb point
          then decimal_digits s' acc scale true seen
          else None
      end
  end.

Definition float_of_decimal (s : string) : option Q :=
  match s with
  | String "-" s' => Qopp <$> decimal_digits s' 0 1 false false
  | String "+" s' => decimal_digits s' 0 1 false false
  | _ => decimal_digits s 0 1 false false
  end.

(** A workspace holding the two elevation rasters under the default names. *)
Definition survey (later earlier : Grid Q) : Env :=
  {| overwriteOutput := false;
     workspace := <["August_2019.tif"%string := FloatRaster later]>
                    (<["May_2019.tif"%string := FloatRaster earlier]> ∅) |}.

(** [DoDfin] with the default names of its signature, on cells of unit area. *)
Definition DoDfin_default (mLoD : Q) : Tool unit :=
  DoDfin 1%Q lower_median float_of_decimal "August_2019.tif" "May_2019.tif"
    (PyFloat mLoD) "Aug_May2019"
    "thres2019" "Reclass_thre2019" "thres_fin2019" "ero2019" "ZonalSt_ero2019".

(** The environment such a run leaves. *)
Definition survey_result (later earlier : Grid Q) (mLoD : Q) : Env :=
  {| overwriteOutput := true;
     workspace :=
       outputs 1%Q lower_median later earlier mLoD "Aug_May2019" "thres2019"
         "Reclass_thre2019" "thres_fin2019" "ero2019" "ZonalSt_ero2019"
         (workspace (survey later earlier)) |}.

(** The record of an eroded cell that lost one unit of elevation. *)
Definition loss_record : StatRow :=
  with_volume {| Value := 1; COUNT := 1; AREA := 1; MIN := -1; MAX := -1;
                 RANGE := 0; MEAN := -1; SUM := -1; MEDIAN := -1; user := ∅ |}%Q.

(** * Properties *)

(** A decidable fact about concrete names, settled by evaluation. *)
Ltac by_decide :=
  match goal with |- ?P => apply (bool_decide_unpack P); vm_compute; exact I end.

(** ** Comparisons and the cell rules *)

Lemma Qltb_lt (x y : Q) : Qltb x y = true ↔ (x < y)%Q.
Proof.
  unfold Qltb. rewrite negb_true_iff. split.
  - intros H. apply Qnot_le_lt. intros Hle.
    apply Qle_bool_iff in Hle. congruence.
  - intros H. destruct (Qle_bool y x) eqn:E; [|reflexivity].
    apply Qle_bool_iff in E. exfalso. exact (Qlt_not_le _ _ H E).
Qed.

Lemma Qltb_ge (x y : Q) : Qltb x y = false ↔ (y <= x)%Q.
Proof.
  unfold Qltb. rewrite negb_false_iff. apply Qle_bool_iff.
Qed.

Lemma inject_one_mult (v : Q) : (inject_Z 1 * v)%Q = v.
Proof.
  destruct v as [n d]. unfold Qmult, inject_Z. cbn [Qnum Qden].
  by rewrite Z.mul_1_l, Pos.mul_1_l.
Qed.

(** The threshold rule on one cell, in its three outcomes. *)
Lemma mask_cell_true (m : Q) (c : option Q) :
  mask_cell m c = Some 1 ↔ ∃ v, c = Some v ∧ ((m < v)%Q ∨ (v < - m)%Q).
Proof.
  destruct c as [v|]; cbn; [|split; [discriminate | intros (? & ? & _); discriminate]].
  split.
  - intros H. exists v. split; [reflexivity|].
    destruct (Qltb m v) eqn:E1; [left; by apply Qltb_lt|].
    destruct (Qltb v (- m)) eqn:E2; [right; by apply Qltb_lt|].
    discriminate.
  - intros (v' & [= <-] & [H | H]); apply Qltb_lt in H; rewrite H; cbn; [done|].
    by destruct (Qltb m v).
Qed.

Lemma mask_cell_false (m : Q) (c : option Q) :
  mask_cell m c = Some 0 ↔ ∃ v, c = Some v ∧ (- m <= v)%Q ∧ (v <= m)%Q.
Proof.
  destruct c as [v|]; cbn; [|split; [discriminate | intros (? & ? & _); discriminate]].
  split.
  - intros H. exists v. split; [reflexivity|].
    destruct (Qltb m v) eqn:E1; [discriminate|].
    destruct (Qltb v (- m)) eqn:E2; [discriminate|].
    split; by apply Qltb_ge.
  - intros (v' & [= <-] & H1 & H2).
    apply Qltb_ge in H1, H2. by rewrite H1, H2.
Qed.

Lemma mask_cell_nodata (m : Q) (c : option Q) :
  mask_cell m c = None ↔ c = None.
Proof. destruct c; cbn; split; congruence. Qed.

(** The erosion rule on one cell. *)
Lemma erosion_cell_one (c : option Q) :
  erosion_cell c = Some 1 ↔ ∃ v, c = Some v ∧ (v < 0)%Q.
Proof.
  destruct c as [v|]; cbn; [|split; [discriminate | intros (? & ? & _); discriminate]].
  split.
  - intros H. exists v. split; [reflexivity|].
    destruct (Qltb v 0) eqn:E; [by apply Qltb_lt | discriminate].
  - intros (v' & [= <-] & H). apply Qltb_lt in H. by rewrite H.
Qed.

Lemma erosion_cell_zero (c : option Q) :
  erosion_cell c = Some 0 ↔ ∃ v, c = Some v ∧ (0 <= v)%Q.
Proof.
  destruct c as [v|]; cbn; [|split; [discriminate | intros (? & ? & _); discriminate]].
  split.
  - intros H. exists v. split; [reflexivity|].
    destruct (Qltb v 0) eqn:E; [discriminate | by apply Qltb_ge].
  - intros (v' & [= <-] & H). apply Qltb_ge in H. by rewrite H.
Qed.

Lemma erosion_cell_nodata (c : option Q) : erosion_cell c = None ↔ c = None.
Proof. destruct c; cbn; split; congruence. Qed.

Lemma erosion_cell_cases (c : option Q) (z : Z) :
  erosion_cell c = Some z → z = 0 ∨ z = 1.
Proof.
  destruct c as [v|]; cbn; [|discriminate].
  destruct (Qltb v 0); cbn; intros [= <-]; auto.
Qed.


Lemma filtered_cell_value (m : Q) (c : option Q) :
  filtered_cell m c = match mask_cell m c with Some 1 => c | _ => None end.
Proof.
  unfold filtered_cell. destruct c as [v|]; [|reflexivity].
  cbn. destruct (Qltb m v); cbn; [by rewrite inject_one_mult|].
  destruct (Qltb v (- m)); cbn; [by rewrite inject_one_mult | reflexivity].
Qed.

(** ** Cells of the rasters a local tool returns *)

Lemma cell_at_local1 {A B} (f : option A → option B) (g : Grid A) (i j : nat) :
  cell_at (local1 f g) i j = f <$> cell_at g i j.
Proof.
  unfold cell_at, local1. rewrite list_lookup_fmap.
  destruct (g !! i) as [row|]; cbn; [|reflexivity].
  apply list_lookup_fmap.
Qed.

Lemma cell_at_local2 {A B C} (f : option A → option B → option C)
    (g : Grid A) (h : Grid B) (i j : nat) :
  cell_at (local2 f g h) i j =
    (a ← cell_at g i j; b ← cell_at h i j; Some (f a b)).
Proof.
  unfold cell_at, local2. rewrite lookup_zip_with.
  destruct (g !! i) as [r1|]; cbn; [|reflexivity].
  destruct (h !! i) as [r2|]; cbn.
  - rewrite lookup_zip_with. by destruct (r1 !! j).
  - by destruct (r1 !! j).
Qed.

Lemma cell_at_dod (later earlier : Grid Q) (i j : nat) :
  cell_at (dod later earlier) i j =
    (a ← cell_at later i j; b ← cell_at earlier i j; Some (minus_cell a b)).
Proof. apply cell_at_local2. Qed.

Lemma cell_at_dod_mask (d : Grid Q) (m : Q) (i j : nat) :
  cell_at (dod_mask d m) i j = mask_cell m <$> cell_at d i j.
Proof.
  unfold dod_mask, BooleanOr, GreaterThan, LessThan.
  rewrite cell_at_local2, !cell_at_local1.
  by destruct (cell_at d i j).
Qed.

Lemma cell_at_dod_binary (mask : Grid Z) (i j : nat) :
  cell_at (dod_binary mask) i j = binary_cell <$> cell_at mask i j.
Proof. apply cell_at_local1. Qed.

Lemma cell_at_dod_filtered (binary : Grid Z) (d : Grid Q) (i j : nat) :
  cell_at (dod_filtered binary d) i j =
    (b ← cell_at binary i j; c ← cell_at d i j; Some (times_cell b c)).
Proof. apply cell_at_local2. Qed.

Lemma cell_at_erosion (f : Grid Q) (i j : nat) :
  cell_at (erosion f) i j = erosion_cell <$> cell_at f i j.
Proof.
  unfold erosion, Con, LessThan. rewrite !cell_at_local1.
  by destruct (cell_at f i j).
Qed.

(** The filtered raster of a run, cell by cell, from the difference. *)
Lemma cell_at_filtered_of (later earlier : Grid Q) (m : Q) (i j : nat) :
  cell_at (filtered_of later earlier m) i j =
    filtered_cell m <$> cell_at (dod later earlier) i j.
Proof.
  unfold filtered_of. rewrite cell_at_dod_filtered, cell_at_dod_binary, cell_at_dod_mask.
  by destruct (cell_at (dod later earlier) i j).
Qed.

Lemma cell_at_erosion_of (later earlier : Grid Q) (m : Q) (i j : nat) :
  cell_at (erosion_of later earlier m) i j =
    erosion_cell <$> cell_at (filtered_of later earlier m) i j.
Proof. apply cell_at_erosion. Qed.

(** In the threshold step both operands of [|] come from the same raster:
    they are NoData at the same cells. *)
Lemma threshold_operands_nodata_together (d : Grid Q) (m : Q) (i j : nat) :
  value_at (GreaterThan d m) i j = None ↔ value_at (LessThan d (- m)%Q) i j = None.
Proof.
  unfold value_at, GreaterThan, LessThan. rewrite !cell_at_local1.
  by destruct (cell_at d i j) as [[v|]|].
Qed.

(** ** What a run of [DoDfin] does to the workspace *)

(** The zonal table of type ALL has the fields the volume expression
    reads, also after a field was added. *)
Lemma volume_fields_present (cell_area : Q) (median : list Q → Q)
    (zones : Grid Z) (values : Grid Q) (policy : IgnoreNoData) (name : string) :
  missing_field
    (add_field name (zonal_table cell_area median zones values policy
                       statistics_type.ALL))
    volume_expression = None.
Proof.
  unfold add_field. cbn [zonal_table user_fields].
  rewrite bool_decide_eq_false_2 by apply not_elem_of_nil.
  vm_compute. reflexivity.
Qed.

Lemma add_field_listed (field_name : string) (t : Table) :
  field_name ∈ user_fields (add_field field_name t).
Proof.
  unfold add_field. case_bool_decide; [done|].
  cbn. set_solver.
Qed.

Section Run.

Variable cell_area : Q.
Variable median : list Q → Q.

Variable float_of_str : string → option Q.

(** A run fails when an input raster cannot be read, or when the threshold
    is no number, by then with the raw difference written; otherwise it
    ends with the outputs written over the workspace it started from. *)
Lemma DoDfin_run (dem_later dem_earlier : string) (mLoD : PyValue)
    (dod_raw dod_threshold_mask dod_reclass dod_thresholded
       erosion_mask erosion_stats : string) (e : Env) :
  DoDfin cell_area median float_of_str dem_later dem_earlier mLoD dod_raw
      dod_threshold_mask dod_reclass dod_thresholded erosion_mask
      erosion_stats e =
    match raster_in (workspace e) dem_later with
    | inl err => Failed err {| overwriteOutput := true; workspace := workspace e |}
    | inr later =>
        match raster_in (workspace e) dem_earlier with
        | inl err =>
            Failed err {| overwriteOutput := true; workspace := workspace e |}
        | inr earlier =>
            match float_value float_of_str mLoD with
            | inl err =>
                Failed err
                  {| overwriteOutput := true;
                     workspace := <[dod_raw := FloatRaster (dod later earlier)]>
                                    (workspace e) |}
            | inr threshold =>
                Done tt {| overwriteOutput := true;
                           workspace :=
                             outputs cell_area median later earlier threshold
                               dod_raw dod_threshold_mask dod_reclass
                               dod_thresholded erosion_mask erosion_stats
                               (workspace e) |}
            end
        end
    end.
Proof.
  unfold DoDfin, mbind, Tool_bind, tool_bind, set_overwriteOutput, Raster.
  cbn [workspace].
  destruct (raster_in (workspace e) dem_later) as [err|later]; [reflexivity|].
  cbn [workspace].
  destruct (raster_in (workspace e) dem_earlier) as [err|earlier]; [reflexivity|].
  unfold save_float, save_int, ZonalStatisticsAsTable, AddField,
    CalculateField, read_table, write, float, mbind, Tool_bind, tool_bind.
  cbn [overwriteOutput workspace negb andb].
  destruct (float_value float_of_str mLoD) as [err|threshold]; [reflexivity|].
  cbn [overwriteOutput workspace negb andb].
  rewrite lookup_insert_eq.
  cbn [overwriteOutput workspace negb andb].
  rewrite lookup_insert_eq.
  rewrite (bool_decide_eq_true_2 _ (add_field_listed _ _)).
  rewrite volume_fields_present.
  cbn [overwriteOutput workspace negb andb].
  rewrite !insert_insert_eq.
  reflexivity.
Qed.

End Run.

(** ** Zones and records *)

Lemma elem_of_overlay (zones : Grid Z) (values : Grid Q) (p : option Z * option Q) :
  p ∈ overlay zones values ↔
    ∃ i j, cell_at zones i j = Some p.1 ∧ cell_at values i j = Some p.2.
Proof.
  unfold overlay, cell_at. rewrite list_elem_of_join. split.
  - intros (l & Hp & Hl).
    apply list_elem_of_lookup in Hl as [i Hi].
    rewrite lookup_zip_with in Hi.
    destruct (zones !! i) as [r1|] eqn:E1; [|discriminate].
    destruct (values !! i) as [r2|] eqn:E2; [|discriminate].
    cbn in Hi. injection Hi as <-.
    apply list_elem_of_lookup in Hp as [j Hj].
    rewrite (lookup_zip_with pair) in Hj.
    destruct (r1 !! j) as [a|] eqn:E3; [|discriminate].
    destruct (r2 !! j) as [b|] eqn:E4; [|discriminate].
    cbn in Hj. injection Hj as <-.
    exists i, j. rewrite E1, E2. cbn. by rewrite E3, E4.
  - intros (i & j & H1 & H2).
    destruct (zones !! i) as [r1|] eqn:E1; [|discriminate].
    destruct (values !! i) as [r2|] eqn:E2; [|discriminate].
    cbn in H1, H2. exists (zip r1 r2). split.
    + apply list_elem_of_lookup. exists j.
      rewrite (lookup_zip_with pair), H1, H2. cbn. by destruct p.
    + apply list_elem_of_lookup. exists i.
      by rewrite lookup_zip_with, E1, E2.
Qed.

Lemma elem_of_zone_ids (ps : list (option Z * option Q)) (z : Z) :
  z ∈ zone_ids ps ↔ ∃ c, (Some z, c) ∈ ps.
Proof.
  unfold zone_ids. rewrite merge_sort_Permutation, elem_of_remove_dups,
    list_elem_of_omap.
  split.
  - intros ([a c] & Hin & Hfst). cbn in Hfst. subst a. by exists c.
  - intros [c Hin]. by exists (Some z, c).
Qed.

Lemma elem_of_zone_data (ps : list (option Z * option Q)) (z : Z) (v : Q) :
  v ∈ zone_data DATA (zone_cells z ps) ↔ (Some z, Some v) ∈ ps.
Proof.
  unfold zone_data, zone_cells. rewrite list_elem_of_omap. split.
  - intros (c & Hc & Hid). cbn in Hid. subst c.
    apply list_elem_of_omap in Hc as ([a b] & Hin & Hz).
    unfold zone_value in Hz. cbn in Hz.
    destruct a as [z'|]; [|discriminate].
    destruct (Z.eqb_spec z z') as [<-|]; [|discriminate].
    by injection Hz as ->.
  - intros Hin. exists (Some v). split; [|reflexivity].
    apply list_elem_of_omap. exists (Some z, Some v). split; [done|].
    unfold zone_value. cbn. by rewrite Z.eqb_refl.
Qed.

(** The values of a zone, spelled out on the overlaid cells. *)
Lemma zone_data_values (z : Z) (ps : list (option Z * option Q)) :
  zone_data DATA (zone_cells z ps) =
    omap (λ p : option Z * option Q,
            match p with
            | (Some z', Some v) => if z' =? z then Some v else None
            | _ => None
            end) ps.
Proof.
  unfold zone_data, zone_cells.
  induction ps as [|[a b] ps IH]; [reflexivity|].
  cbn [omap list_omap]. unfold zone_value at 1. cbn [fst snd].
  destruct a as [z'|]; [|exact IH].
  rewrite (Z.eqb_sym z z'). destruct (z' =? z).
  - cbn [omap list_omap]. destruct b as [v|]; cbn [id]; [by rewrite IH | exact IH].
  - destruct b; exact IH.
Qed.

Lemma erosion_cons (row : list (option Q)) (f : Grid Q) :
  erosion (row :: f) = (erosion_cell <$> row) :: erosion f.
Proof.
  unfold erosion, Con, LessThan, local1. rewrite !fmap_cons. f_equal.
  rewrite <- list_fmap_compose. reflexivity.
Qed.

(** A cell of the erosion raster that has a value lies over a value of the
    filtered raster: the values of a zone are as many as its cells. *)
Lemma zone_values_count_row (z : Z) (row : list (option Q)) :
  length (omap (λ p : option Z * option Q,
                  match p with
                  | (Some z', Some v) => if z' =? z then Some v else None
                  | _ => None
                  end) (zip (erosion_cell <$> row) row)) =
  length (filter (λ c : option Z, c = Some z) (erosion_cell <$> row)).
Proof.
  induction row as [|c row IH]; [reflexivity|].
  rewrite fmap_cons. cbn [zip_with]. cbn [omap list_omap]. rewrite filter_cons.
  destruct c as [v|].
  - assert (E : ∃ z', erosion_cell (Some v) = Some z') by (cbn; eauto).
    destruct E as [z' E]. rewrite E.
    destruct (Z.eqb_spec z' z) as [-> | Hne].
    + rewrite decide_True by reflexivity. cbn [length]. by rewrite IH.
    + rewrite decide_False by (intros [= ?]; done). exact IH.
  - change (erosion_cell None) with (@None Z).
    rewrite decide_False by discriminate. exact IH.
Qed.

Lemma zone_values_count (z : Z) (f : Grid Q) :
  length (omap (λ p : option Z * option Q,
                  match p with
                  | (Some z', Some v) => if z' =? z then Some v else None
                  | _ => None
                  end) (overlay (erosion f) f)) =
  length (filter (λ c : option Z, c = Some z) (mjoin (erosion f))).
Proof.
  unfold overlay. induction f as [|row f IH]; [reflexivity|].
  rewrite erosion_cons. cbn [zip_with].
  change (mjoin (zip (erosion_cell <$> row) row :: zip_with zip (erosion f) f))
    with (zip (erosion_cell <$> row) row ++ mjoin (zip_with zip (erosion f) f)).
  change (mjoin ((erosion_cell <$> row) :: erosion f))
    with ((erosion_cell <$> row) ++ mjoin (erosion f)).
  rewrite omap_app, filter_app, !length_app, IH.
  f_equal. apply zone_values_count_row.
Qed.

Section Records.

Variable cell_area : Q.
Variable median : list Q → Q.

Lemma zonal_row_Some (z : Z) (vs : list Q) (r : StatRow) :
  zonal_row cell_area median z vs = Some r →
    vs ≠ [] ∧ Value r = z ∧ COUNT r = Z.of_nat (length vs) ∧
    AREA r = (inject_Z (COUNT r) * cell_area)%Q ∧ MEDIAN r = median vs.
Proof.
  destruct vs as [|v vs']; [discriminate|].
  cbn. intros [= <-]. cbn. done.
Qed.

Lemma zonal_row_is_Some (z : Z) (vs : list Q) :
  vs ≠ [] → is_Some (zonal_row cell_area median z vs).
Proof. destruct vs; [done|]. intros _. by eexists. Qed.

(** A record of the table belongs to a zone value that occurs, and is
    computed over the valid value cells of that zone. *)
Lemma elem_of_zonal_rows (ps : list (option Z * option Q)) (r : StatRow) :
  r ∈ zonal_rows cell_area median DATA ps ↔
    ∃ z, z ∈ zone_ids ps ∧
         zonal_row cell_area median z (zone_data DATA (zone_cells z ps)) = Some r.
Proof. unfold zonal_rows. apply list_elem_of_omap. Qed.

(** The table has a record for zone [z] exactly when some cell of zone [z]
    carries a value. *)
Lemma zonal_rows_zone (ps : list (option Z * option Q)) (z : Z) :
  (∃ r, r ∈ zonal_rows cell_area median DATA ps ∧ Value r = z) ↔
    ∃ v, (Some z, Some v) ∈ ps.
Proof.
  split.
  - intros (r & Hr & Hz). apply elem_of_zonal_rows in Hr as (z' & _ & Hrow).
    apply zonal_row_Some in Hrow as (Hne & Hv & _). subst z'. rewrite Hz in Hne.
    destruct (zone_data DATA (zone_cells z ps)) as [|v vs] eqn:E; [done|].
    exists v. apply elem_of_zone_data. rewrite E. by left.
  - intros [v Hin].
    assert (Hv : v ∈ zone_data DATA (zone_cells z ps)) by by apply elem_of_zone_data.
    destruct (zonal_row_is_Some z (zone_data DATA (zone_cells z ps))) as [r Hr].
    { intros Hnil. rewrite Hnil in Hv. by apply not_elem_of_nil in Hv. }
    exists r. split.
    + apply elem_of_zonal_rows. exists z. split; [|done].
      apply elem_of_zone_ids. by exists (Some v).
    + by apply zonal_row_Some in Hr as (_ & ? & _).
Qed.


(** The records of the final table are those of the zonal table, each with
    its [Volume] calculated. *)
Lemma rows_stats_of (later earlier : Grid Q) (mLoD : Q) :
  rows (stats_of cell_area median later earlier mLoD) =
    with_volume <$>
      zonal_rows cell_area median DATA
        (overlay (erosion_of later earlier mLoD) (filtered_of later earlier mLoD)).
Proof.
  unfold stats_of, calculate_field, add_field, zonal_table.
  cbn [user_fields rows].
  rewrite bool_decide_eq_false_2 by apply not_elem_of_nil.
  cbn [user_fields rows]. rewrite <- list_fmap_compose. reflexivity.
Qed.

Lemma volume_of_with_volume (r : StatRow) :
  volume_of (with_volume r) = Some (Some (AREA r * MEDIAN r)%Q).
Proof. unfold volume_of, with_volume. cbn. apply lookup_insert_eq. Qed.

End Records.

(** * The raster stages *)

(** C1, as stated, fails: where the filtered difference is NoData the
    erosion mask is NoData as well, not 0. *)
Lemma erosion_nodata_is_not_zero :
  cell_at ([[None]] : Grid Q) 0 0 = Some None ∧
  cell_at (erosion [[None]]) 0 0 = Some None ∧
  cell_at (erosion [[None]]) 0 0 ≠ Some (Some 0).
Proof. repeat split. discriminate. Qed.

(** C1, amended: at every cell of the filtered difference raster the erosion
    step gives 1 where the filtered value is negative, 0 where it is a
    value that is not negative, and NoData where the filtered value is
    NoData; so the erosion mask carries a value exactly at the cells where
    the filtered raster does. *)
Theorem erosion_rule (f : Grid Q) (i j : nat) (c : option Q) :
  cell_at f i j = Some c →
    (∀ v, c = Some v → (v < 0)%Q → cell_at (erosion f) i j = Some (Some 1)) ∧
    (∀ v, c = Some v → (0 <= v)%Q → cell_at (erosion f) i j = Some (Some 0)) ∧
    (c = None → cell_at (erosion f) i j = Some None) ∧
    (is_Some (value_at (erosion f) i j) ↔ is_Some (value_at f i j)).
Proof.
  intros Hc. unfold value_at. rewrite cell_at_erosion, Hc. cbn [fmap option_fmap option_map].
  repeat split.
  - intros v -> Hv. f_equal. apply erosion_cell_one. eauto.
  - intros v -> Hv. f_equal. apply erosion_cell_zero. eauto.
  - by intros ->.
  - destruct c; cbn; [eauto | by intros [? ?]].
  - destruct c; cbn; [eauto | by intros [? ?]].
Qed.

Lemma erosion_rule_witness :
  cell_at (erosion [[Some (-1 # 2)%Q; None]]) 0 0 = Some (Some 1).
Proof.
  apply (proj1 (erosion_rule [[Some (-1 # 2)%Q; None]] 0 0 (Some (-1 # 2)%Q) eq_refl)
           (-1 # 2)%Q); reflexivity.
Defined.

(** C3, as stated, fails: a NoData cell of the difference raster is NoData
    in the threshold mask, not false. *)
Lemma mask_nodata_is_not_false :
  (0 <= 1 # 5)%Q ∧
  cell_at ([[None]] : Grid Q) 0 0 = Some None ∧
  cell_at (dod_mask [[None]] (1 # 5)) 0 0 = Some None ∧
  cell_at (dod_mask [[None]] (1 # 5)) 0 0 ≠ Some (Some 0).
Proof. repeat split; discriminate. Qed.

(** C3, amended: for every cell of the difference raster and every
    [mLoD >= 0], the threshold mask is true (1) exactly when the cell has a
    value that is greater than [mLoD] or less than [-mLoD]; it is false (0)
    exactly when the cell has a value within [-mLoD .. mLoD], the bounds
    included; and it is NoData exactly when the cell is NoData, so a NoData
    cell is never true. *)
Theorem threshold_rule (d : Grid Q) (mLoD : Q) (i j : nat) (c : option Q) :
  (0 <= mLoD)%Q →
  cell_at d i j = Some c →
    (cell_at (dod_mask d mLoD) i j = Some (Some 1) ↔
       ∃ v, c = Some v ∧ ((mLoD < v)%Q ∨ (v < - mLoD)%Q)) ∧
    (cell_at (dod_mask d mLoD) i j = Some (Some 0) ↔
       ∃ v, c = Some v ∧ (- mLoD <= v)%Q ∧ (v <= mLoD)%Q) ∧
    (cell_at (dod_mask d mLoD) i j = Some None ↔ c = None).
Proof.
  intros _ Hc. rewrite cell_at_dod_mask, Hc. cbn [fmap option_fmap option_map].
  repeat split.
  - intros [= H]. by apply mask_cell_true.
  - intros H. f_equal. by apply mask_cell_true.
  - intros [= H]. by apply mask_cell_false.
  - intros H. f_equal. by apply mask_cell_false.
  - intros [= H]. by apply mask_cell_nodata in H.
  - intros ->. reflexivity.
Qed.

Lemma threshold_rule_witness :
  cell_at (dod_mask [[Some (1 # 5)%Q; Some (-1 # 2)%Q]] (1 # 5)) 0 1 = Some (Some 1) ∧
  cell_at (dod_mask [[Some (1 # 5)%Q; Some (-1 # 2)%Q]] (1 # 5)) 0 0 = Some (Some 0).
Proof.
  split.
  - apply (proj1 (threshold_rule [[Some (1 # 5)%Q; Some (-1 # 2)%Q]] (1 # 5) 0 1
                    (Some (-1 # 2)%Q) ltac:(discriminate) eq_refl)).
    exists (-1 # 2)%Q. split; [reflexivity | right; reflexivity].
  - apply (proj1 (proj2 (threshold_rule [[Some (1 # 5)%Q; Some (-1 # 2)%Q]] (1 # 5) 0 0
                           (Some (1 # 5)%Q) ltac:(discriminate) eq_refl))).
    exists (1 # 5)%Q. split; [reflexivity | split; discriminate].
Defined.

(** C9: for every difference raster and thresholds [0 <= m1 <= m2], a cell
    that is true in the mask for [m2] is true in the mask for [m1]. *)
Theorem threshold_monotone (D : Grid Q) (m1 m2 : Q) (i j : nat) :
  (0 <= m1)%Q → (m1 <= m2)%Q →
  cell_at (dod_mask D m2) i j = Some (Some 1) →
  cell_at (dod_mask D m1) i j = Some (Some 1).
Proof.
  intros _ Hle. rewrite !cell_at_dod_mask.
  destruct (cell_at D i j) as [c|]; [|discriminate].
  cbn. intros [= H]. f_equal.
  apply mask_cell_true in H as (v & -> & Hv). apply mask_cell_true.
  exists v. split; [reflexivity|].
  destruct Hv as [Hv | Hv].
  - left. by apply Qle_lt_trans with m2.
  - right. apply Qlt_le_trans with (- m2)%Q; [done|]. by apply Qopp_le_compat.
Qed.

Lemma threshold_monotone_witness :
  cell_at (dod_mask [[Some (1 # 2)%Q]] (1 # 10)) 0 0 = Some (Some 1).
Proof.
  apply (threshold_monotone [[Some (1 # 2)%Q]] (1 # 10) (1 # 5) 0 0);
    [discriminate | discriminate | reflexivity].
Defined.

(** C6: where a cell of either elevation raster is NoData the difference is
    NoData, and where a cell of the binary classification or of the
    difference is NoData the filtered difference is NoData; the same holds
    for the values read, a position outside a raster reading as NoData. *)
Theorem nodata_propagates :
  (∀ (later earlier : Grid Q) i j a b,
     cell_at later i j = Some a → cell_at earlier i j = Some b →
     a = None ∨ b = None →
     cell_at (dod later earlier) i j = Some None) ∧
  (∀ (binary : Grid Z) (d : Grid Q) i j b c,
     cell_at binary i j = Some b → cell_at d i j = Some c →
     b = None ∨ c = None →
     cell_at (dod_filtered binary d) i j = Some None) ∧
  (∀ (later earlier : Grid Q) i j,
     value_at later i j = None ∨ value_at earlier i j = None →
     value_at (dod later earlier) i j = None) ∧
  (∀ (binary : Grid Z) (d : Grid Q) i j,
     value_at binary i j = None ∨ value_at d i j = None →
     value_at (dod_filtered binary d) i j = None).
Proof.
  repeat split.
  - intros later earlier i j a b Ha Hb H. rewrite cell_at_dod, Ha, Hb. cbn.
    destruct H as [-> | ->]; [done | by destruct a].
  - intros binary d i j b c Hb Hc H. rewrite cell_at_dod_filtered, Hb, Hc. cbn.
    destruct H as [-> | ->]; [done | by destruct b].
  - intros later earlier i j H. unfold value_at in *. rewrite cell_at_dod.
    destruct (cell_at later i j) as [[a|]|], (cell_at earlier i j) as [[b|]|];
      cbn in *; try done; by destruct H.
  - intros binary d i j H. unfold value_at in *. rewrite cell_at_dod_filtered.
    destruct (cell_at binary i j) as [[a|]|], (cell_at d i j) as [[b|]|];
      cbn in *; try done; by destruct H.
Qed.

Lemma nodata_propagates_witness :
  cell_at (dod [[None]] [[Some 1%Q]]) 0 0 = Some None ∧
  cell_at (dod_filtered [[Some 1]] [[None]]) 0 0 = Some None ∧
  value_at (dod [[Some 1%Q]] []) 0 0 = None ∧
  value_at (dod_filtered [[None]] [[Some 1%Q]]) 0 0 = None.
Proof.
  destruct nodata_propagates as (H1 & H2 & H3 & H4).
  split; [|split; [|split]].
  - apply (H1 [[None]] [[Some 1%Q]] 0%nat 0%nat None (Some 1%Q));
      [reflexivity | reflexivity | left; reflexivity].
  - apply (H2 [[Some 1]] [[None]] 0%nat 0%nat (Some 1) None);
      [reflexivity | reflexivity | right; reflexivity].
  - apply (H3 [[Some 1%Q]] [] 0%nat 0%nat). right. reflexivity.
  - apply (H4 [[None]] [[Some 1%Q]] 0%nat 0%nat). left. reflexivity.
Defined.

(** * The run as a whole *)

Lemma raster_in_lookup (w1 w2 : gmap string Artifact) (name : string) :
  w1 !! name = w2 !! name → raster_in w1 name = raster_in w2 name.
Proof. unfold raster_in. by intros ->. Qed.

Section RunProperties.

Variable cell_area : Q.
Variable median : list Q → Q.
Variable float_of_str : string → option Q.

Variables dem_later dem_earlier : string.
Variable mLoD : Q.
Variables dod_raw dod_threshold_mask dod_reclass dod_thresholded
  erosion_mask erosion_stats : string.

Local Abbreviation run :=
  (DoDfin cell_area median float_of_str dem_later dem_earlier (PyFloat mLoD)
     dod_raw dod_threshold_mask dod_reclass dod_thresholded erosion_mask
     erosion_stats).

Local Abbreviation written later earlier w :=
  (outputs cell_area median later earlier mLoD dod_raw dod_threshold_mask
     dod_reclass dod_thresholded erosion_mask erosion_stats w).

Local Abbreviation names :=
  [dod_raw; dod_threshold_mask; dod_reclass; dod_thresholded;
   erosion_mask; erosion_stats].

Lemma DoDfin_completes (e : Env) (later earlier : Grid Q) :
  raster_in (workspace e) dem_later = inr later →
  raster_in (workspace e) dem_earlier = inr earlier →
  run e = Done tt {| overwriteOutput := true;
                     workspace := written later earlier (workspace e) |}.
Proof. intros H1 H2. by rewrite DoDfin_run, H1, H2. Qed.

Lemma DoDfin_Done_inv (e e' : Env) :
  run e = Done tt e' →
  ∃ later earlier,
    raster_in (workspace e) dem_later = inr later ∧
    raster_in (workspace e) dem_earlier = inr earlier ∧
    e' = {| overwriteOutput := true;
            workspace := written later earlier (workspace e) |}.
Proof.
  rewrite DoDfin_run.
  destruct (raster_in (workspace e) dem_later) as [?|later]; [discriminate|].
  destruct (raster_in (workspace e) dem_earlier) as [?|earlier]; [discriminate|].
  intros [= <-]. by exists later, earlier.
Qed.

Lemma written_stats (later earlier : Grid Q) (w : gmap string Artifact) :
  written later earlier w !! erosion_stats =
    Some (TableData (stats_of cell_area median later earlier mLoD)).
Proof. unfold outputs. apply lookup_insert_eq. Qed.

(** What is stored under an output name after the run does not depend on
    the workspace the run started from. *)
Lemma written_indep (later earlier : Grid Q) (w1 w2 : gmap string Artifact)
    (name : string) :
  name ∈ names →
  written later earlier w1 !! name = written later earlier w2 !! name.
Proof.
  intros Hin. unfold outputs. rewrite !lookup_insert.
  repeat case_decide; try reflexivity.
  exfalso. rewrite !elem_of_cons, elem_of_nil in Hin.
  destruct Hin as [?|[?|[?|[?|[?|[?|[]]]]]]]; congruence.
Qed.

Lemma written_is_Some (later earlier : Grid Q) (w : gmap string Artifact)
    (name : string) :
  name ∈ names → is_Some (written later earlier w !! name).
Proof.
  intros Hin. unfold outputs. rewrite !lookup_insert.
  repeat case_decide; try by eexists.
  exfalso. rewrite !elem_of_cons, elem_of_nil in Hin.
  destruct Hin as [?|[?|[?|[?|[?|[?|[]]]]]]]; congruence.
Qed.

(** In a run every cell of the erosion raster lies over a cell of the
    filtered raster and is computed from it: zone [z] has a value cell
    exactly when the erosion raster has a cell equal to [z]. *)
Lemma run_zone_cells (later earlier : Grid Q) (z : Z) :
  (∃ v, (Some z, Some v) ∈
          overlay (erosion_of later earlier mLoD) (filtered_of later earlier mLoD)) ↔
  ∃ i j, cell_at (erosion_of later earlier mLoD) i j = Some (Some z).
Proof.
  split.
  - intros (v & Hin). apply elem_of_overlay in Hin as (i & j & H1 & _). eauto.
  - intros (i & j & H). pose proof H as H'.
    rewrite cell_at_erosion_of in H'.
    destruct (cell_at (filtered_of later earlier mLoD) i j) as [c|] eqn:E;
      [|discriminate].
    cbn in H'. injection H' as H'.
    destruct c as [v|]; [|discriminate].
    exists v. apply elem_of_overlay. exists i, j. by rewrite H, E.
Qed.

Lemma stats_rows_zone (later earlier : Grid Q) (z : Z) :
  (∃ r, r ∈ rows (stats_of cell_area median later earlier mLoD) ∧ Value r = z) ↔
  ∃ i j, cell_at (erosion_of later earlier mLoD) i j = Some (Some z).
Proof.
  rewrite <- run_zone_cells, <- (zonal_rows_zone cell_area median), rows_stats_of.
  split.
  - intros (r & Hr & Hz). apply list_elem_of_fmap in Hr as (r0 & -> & Hr0).
    exists r0. split; [exact Hr0 | exact Hz].
  - intros (r0 & Hr0 & Hz). exists (with_volume r0). split; [|done].
    by apply list_elem_of_fmap_2.
Qed.

Lemma stats_rows_volume (later earlier : Grid Q) (r : StatRow) :
  r ∈ rows (stats_of cell_area median later earlier mLoD) →
  volume_of r = Some (Some (AREA r * MEDIAN r)%Q).
Proof.
  rewrite rows_stats_of. intros (r0 & -> & _)%list_elem_of_fmap.
  exact (volume_of_with_volume r0).
Qed.

Lemma stats_rows_binary (later earlier : Grid Q) (r : StatRow) :
  r ∈ rows (stats_of cell_area median later earlier mLoD) →
  Value r = 0 ∨ Value r = 1.
Proof.
  intros Hr.
  destruct (proj1 (stats_rows_zone later earlier (Value r))) as (i & j & H);
    [by exists r|].
  rewrite cell_at_erosion_of in H.
  destruct (cell_at (filtered_of later earlier mLoD) i j) as [c|]; [|discriminate].
  cbn in H. injection H as H. by apply erosion_cell_cases in H.
Qed.

End RunProperties.

Section RunClaims.

Variable cell_area : Q.
Variable median : list Q → Q.
Variable float_of_str : string → option Q.

Variables dem_later dem_earlier : string.
Variable mLoD : Q.
Variables dod_raw dod_threshold_mask dod_reclass dod_thresholded
  erosion_mask erosion_stats : string.

Local Abbreviation run :=
  (DoDfin cell_area median float_of_str dem_later dem_earlier (PyFloat mLoD)
     dod_raw dod_threshold_mask dod_reclass dod_thresholded erosion_mask
     erosion_stats).

Local Abbreviation names :=
  [dod_raw; dod_threshold_mask; dod_reclass; dod_thresholded;
   erosion_mask; erosion_stats].

(** C2: after a run that completes, every record of the statistics table
    has [Volume = AREA * MEDIAN]; the table has one record per record of
    the zonal table, with the statistics unchanged and [Volume] calculated
    from them, so an empty zonal table gives an empty final table. *)
Theorem volume_identity (e e' : Env) :
  run e = Done tt e' →
  ∃ later earlier t,
    raster_in (workspace e) dem_later = inr later ∧
    raster_in (workspace e) dem_earlier = inr earlier ∧
    workspace e' !! erosion_stats = Some (TableData t) ∧
    Forall (λ r, volume_of r = Some (Some (AREA r * MEDIAN r)%Q)) (rows t) ∧
    Forall2 (λ r0 r, Value r = Value r0 ∧ AREA r = AREA r0 ∧
                     MEDIAN r = MEDIAN r0 ∧
                     volume_of r = Some (Some (AREA r0 * MEDIAN r0)%Q))
      (rows (zonal_table cell_area median (erosion_of later earlier mLoD)
               (filtered_of later earlier mLoD) DATA statistics_type.ALL))
      (rows t).
Proof.
  intros Hrun. apply DoDfin_Done_inv in Hrun as (later & earlier & H1 & H2 & ->).
  exists later, earlier, (stats_of cell_area median later earlier mLoD).
  split; [done|]. split; [done|]. split; [apply written_stats|]. split.
  - apply Forall_forall. intros r Hr. by apply stats_rows_volume in Hr.
  - rewrite rows_stats_of. cbn [zonal_table rows].
    apply Forall2_fmap_r, Forall_Forall2_diag, Forall_forall.
    intros r0 _. repeat split. exact (volume_of_with_volume r0).
Qed.

(** C7, amended: the zonal call takes the erosion raster as zone raster and
    the filtered raster as value raster, with [ignore_nodata = DATA] and
    [statistics_type = ALL], so that the table has the AREA and MEDIAN
    columns; it selects no zone.  After a run that completes the table is
    the zonal table of these arguments with [Volume] added and calculated;
    it has a record for zone value [z] exactly when the erosion raster has
    a cell equal to [z]; every record belongs to zone 0 or zone 1; its
    statistics are taken over the values of the filtered raster at the
    cells of its zone, in row order, one value per cell: the count is the
    number of cells of the erosion raster equal to the zone value, the
    area is the count times the cell area, and the median is the median of
    these values. *)
Theorem stats_table_zones (e e' : Env) :
  run e = Done tt e' →
  ∃ later earlier t,
    raster_in (workspace e) dem_later = inr later ∧
    raster_in (workspace e) dem_earlier = inr earlier ∧
    workspace e' !! erosion_stats = Some (TableData t) ∧
    t = calculate_field "Volume" area_times_median
          (add_field "Volume"
             (zonal_table cell_area median (erosion_of later earlier mLoD)
                (filtered_of later earlier mLoD) DATA statistics_type.ALL)) ∧
    "AREA"%string ∈ columns t ∧ "MEDIAN"%string ∈ columns t ∧
    (∀ z, (∃ r, r ∈ rows t ∧ Value r = z) ↔
          ∃ i j, cell_at (erosion_of later earlier mLoD) i j = Some (Some z)) ∧
    (∀ r, r ∈ rows t →
       (Value r = 0 ∨ Value r = 1) ∧
       ∃ vs : list Q,
         vs = omap (λ p : option Z * option Q,
                      match p with
                      | (Some z, Some v) => if z =? Value r then Some v else None
                      | _ => None
                      end)
                (mjoin (zip_with zip (erosion_of later earlier mLoD)
                          (filtered_of later earlier mLoD))) ∧
         (∀ v, v ∈ vs ↔
               ∃ i j, cell_at (erosion_of later earlier mLoD) i j = Some (Some (Value r)) ∧
                      cell_at (filtered_of later earlier mLoD) i j = Some (Some v)) ∧
         COUNT r = Z.of_nat (length vs) ∧
         COUNT r = Z.of_nat (length (filter (λ c : option Z, c = Some (Value r))
                                       (mjoin (erosion_of later earlier mLoD)))) ∧
         AREA r = (inject_Z (COUNT r) * cell_area)%Q ∧
         MEDIAN r = median vs).
Proof.
  intros Hrun. apply DoDfin_Done_inv in Hrun as (later & earlier & H1 & H2 & ->).
  exists later, earlier, (stats_of cell_area median later earlier mLoD).
  split; [done|]. split; [done|]. split; [apply written_stats|].
  split; [reflexivity|].
  split; [by_decide|]. split; [by_decide|]. split.
  - intros z. apply stats_rows_zone.
  - intros r Hr. split; [by apply stats_rows_binary in Hr|].
    rewrite rows_stats_of in Hr.
    apply list_elem_of_fmap in Hr as (r0 & -> & Hr0).
    apply elem_of_zonal_rows in Hr0 as (z & _ & Hrow).
    apply zonal_row_Some in Hrow as (_ & Hz & Hn & Ha & Hm).
    cbn [with_volume Value COUNT AREA MEDIAN]. rewrite Hz.
    exists (zone_data DATA
              (zone_cells z (overlay (erosion_of later earlier mLoD)
                               (filtered_of later earlier mLoD)))).
    split; [apply zone_data_values|].
    split; [intros v; rewrite elem_of_zone_data, elem_of_overlay; reflexivity|].
    split; [exact Hn|].
    split; [|by split].
    rewrite Hn. f_equal. rewrite zone_data_values. apply zone_values_count.
Qed.

(** C8, amended: a run on two rasters whose erosion raster has no cell
    equal to 1 completes; the statistics table then has no record for
    zone 1: its records, if any, belong to zone 0, each with its [Volume]
    calculated, and it is empty exactly when the erosion raster has no
    cell equal to 0 either. *)
Theorem no_erosion_run (e : Env) (later earlier : Grid Q) :
  raster_in (workspace e) dem_later = inr later →
  raster_in (workspace e) dem_earlier = inr earlier →
  (∀ i j, cell_at (erosion_of later earlier mLoD) i j ≠ Some (Some 1)) →
  ∃ e' t,
    run e = Done tt e' ∧
    workspace e' !! erosion_stats = Some (TableData t) ∧
    (∀ r, r ∈ rows t →
       Value r = 0 ∧ volume_of r = Some (Some (AREA r * MEDIAN r)%Q)) ∧
    (rows t = [] ↔
       ∀ i j, cell_at (erosion_of later earlier mLoD) i j ≠ Some (Some 0)).
Proof.
  intros H1 H2 Hno. eexists _, (stats_of cell_area median later earlier mLoD).
  split; [by apply DoDfin_completes|]. split; [apply written_stats|]. split.
  - intros r Hr. split; [|by apply stats_rows_volume in Hr].
    destruct (stats_rows_binary _ _ _ _ _ _ Hr) as [Hz | Hz]; [done|].
    destruct (proj1 (stats_rows_zone cell_area median mLoD later earlier 1))
      as (i & j & Hc); [by exists r|].
    by apply Hno in Hc.
  - split.
    + intros Hnil i j Hc.
      destruct (proj2 (stats_rows_zone cell_area median mLoD later earlier 0))
        as (r & Hr & _); [by exists i, j|].
      rewrite Hnil in Hr. by apply not_elem_of_nil in Hr.
    + intros Hno0.
      destruct (rows (stats_of cell_area median later earlier mLoD))
        as [|r rs] eqn:E; [reflexivity|].
      assert (Hr : r ∈ rows (stats_of cell_area median later earlier mLoD))
        by (rewrite E; left).
      destruct (proj1 (stats_rows_zone cell_area median mLoD later earlier (Value r)))
        as (i & j & Hc); [by exists r|].
      destruct (stats_rows_binary _ _ _ _ _ _ Hr) as [Hz | Hz];
        rewrite Hz in Hc; [by apply Hno0 in Hc | by apply Hno in Hc].
Qed.

(** C4, amended: a run with a negative [mLoD] on two rasters does not
    fail: it completes with all six artifacts written, and its threshold
    mask is true at every cell where the difference has a value. *)
Theorem negative_mLoD_run (e : Env) (later earlier : Grid Q) :
  (mLoD < 0)%Q →
  raster_in (workspace e) dem_later = inr later →
  raster_in (workspace e) dem_earlier = inr earlier →
  ∃ e',
    run e = Done tt e' ∧
    (∀ name, name ∈ names → is_Some (workspace e' !! name)) ∧
    (∀ i j v, cell_at (dod later earlier) i j = Some (Some v) →
              cell_at (dod_mask (dod later earlier) mLoD) i j = Some (Some 1)).
Proof.
  intros Hneg H1 H2. eexists. split; [by apply DoDfin_completes|]. split.
  - intros name Hin. cbn [workspace]. by apply written_is_Some.
  - intros i j v Hc. rewrite cell_at_dod_mask, Hc.
    cbn [fmap option_fmap option_map]. f_equal.
    apply mask_cell_true. exists v. split; [reflexivity|].
    destruct (Qlt_le_dec mLoD v) as [Hlt | Hle]; [by left | right].
    apply Qle_lt_trans with mLoD; [done|].
    apply Qlt_trans with 0%Q; [done|].
    exact (Qopp_lt_compat mLoD 0 Hneg).
Qed.

(** C5, amended: the difference step checks nothing about the two rasters
    and no run fails for their shapes: on any two rasters the run
    completes with all six artifacts written, the difference having a
    cell exactly where both rasters have one, equal to the later value
    minus the earlier one where both are values. *)
Theorem difference_on_common_cells (e : Env) (later earlier : Grid Q) :
  raster_in (workspace e) dem_later = inr later →
  raster_in (workspace e) dem_earlier = inr earlier →
  ∃ e',
    run e = Done tt e' ∧
    (∀ name, name ∈ names → is_Some (workspace e' !! name)) ∧
    (∀ i j, is_Some (cell_at (dod later earlier) i j) ↔
            is_Some (cell_at later i j) ∧ is_Some (cell_at earlier i j)) ∧
    (∀ i j x y, cell_at later i j = Some (Some x) →
                cell_at earlier i j = Some (Some y) →
                cell_at (dod later earlier) i j = Some (Some (x - y)%Q)).
Proof.
  intros H1 H2. eexists. split; [by apply DoDfin_completes|]. split; [|split].
  - intros name Hin. cbn [workspace]. by apply written_is_Some.
  - intros i j. rewrite cell_at_dod. unfold is_Some.
    destruct (cell_at later i j) as [a|], (cell_at earlier i j) as [b|]; cbn.
    + split; [intros _; split; by eexists | intros _; by eexists].
    + split; [by intros [? ?] | by intros [_ [? ?]]].
    + split; [by intros [? ?] | by intros [[? ?] _]].
    + split; [by intros [? ?] | by intros [[? ?] _]].
  - intros i j x y Ha Hb. by rewrite cell_at_dod, Ha, Hb.
Qed.

End RunClaims.

(** * Runs on concrete surveys *)


Lemma DoDfin_default_run (later earlier : Grid Q) (mLoD : Q) :
  DoDfin_default mLoD (survey later earlier) =
    Done tt (survey_result later earlier mLoD).
Proof. unfold DoDfin_default. rewrite DoDfin_run. reflexivity. Qed.

Lemma volume_identity_witness :
  ∃ t, workspace (survey_result [[Some 1%Q; Some (-1)%Q]] [[Some 0%Q; Some 0%Q]] (1 # 5))
         !! "ZonalSt_ero2019"%string = Some (TableData t) ∧
       Forall (λ r, volume_of r = Some (Some (AREA r * MEDIAN r)%Q)) (rows t).
Proof.
  destruct (volume_identity 1%Q lower_median float_of_decimal "August_2019.tif" "May_2019.tif" (1 # 5)
              "Aug_May2019" "thres2019" "Reclass_thre2019" "thres_fin2019" "ero2019"
              "ZonalSt_ero2019"
              (survey [[Some 1%Q; Some (-1)%Q]] [[Some 0%Q; Some 0%Q]])
              (survey_result [[Some 1%Q; Some (-1)%Q]] [[Some 0%Q; Some 0%Q]] (1 # 5))
              (DoDfin_default_run _ _ _))
    as (later & earlier & t & _ & _ & Ht & Hv & _).
  exists t. split; [exact Ht | exact Hv].
Defined.

(** C7, as stated, fails: the call selects no zone, and a survey with a
    rise and a fall above the threshold gets a record for zone 0 next to
    the one for zone 1. *)
Lemma stats_table_has_zone_0 :
  ∃ e' t,
    DoDfin_default (1 # 5) (survey [[Some 1%Q; Some (-1)%Q]] [[Some 0%Q; Some 0%Q]])
      = Done tt e' ∧
    workspace e' !! "ZonalSt_ero2019"%string = Some (TableData t) ∧
    Value <$> rows t = [0; 1].
Proof.
  eexists _, _. split; [apply DoDfin_default_run|].
  split; [apply lookup_insert_eq|]. vm_compute. reflexivity.
Qed.

Lemma stats_table_zones_witness :
  ∃ t, workspace (survey_result [[Some 1%Q; Some (-1)%Q]] [[Some 0%Q; Some 0%Q]] (1 # 5))
         !! "ZonalSt_ero2019"%string = Some (TableData t) ∧
       "AREA"%string ∈ columns t ∧ "MEDIAN"%string ∈ columns t ∧
       ∀ r, r ∈ rows t →
         (Value r = 0 ∨ Value r = 1) ∧
         COUNT r =
           Z.of_nat (length (filter (λ c : option Z, c = Some (Value r))
                               (mjoin (erosion_of [[Some 1%Q; Some (-1)%Q]]
                                         [[Some 0%Q; Some 0%Q]] (1 # 5))))).
Proof.
  destruct (stats_table_zones 1%Q lower_median float_of_decimal "August_2019.tif"
              "May_2019.tif" (1 # 5)
              "Aug_May2019" "thres2019" "Reclass_thre2019" "thres_fin2019" "ero2019"
              "ZonalSt_ero2019"
              (survey [[Some 1%Q; Some (-1)%Q]] [[Some 0%Q; Some 0%Q]])
              (survey_result [[Some 1%Q; Some (-1)%Q]] [[Some 0%Q; Some 0%Q]] (1 # 5))
              (DoDfin_default_run _ _ _))
    as (later & earlier & t & Hl & He & Ht & _ & Ha & Hm & _ & Hr).
  assert (El : raster_in (workspace (survey [[Some 1%Q; Some (-1)%Q]]
                                       [[Some 0%Q; Some 0%Q]]))
                 "August_2019.tif" = inr [[Some 1%Q; Some (-1)%Q]]) by reflexivity.
  assert (Ee : raster_in (workspace (survey [[Some 1%Q; Some (-1)%Q]]
                                       [[Some 0%Q; Some 0%Q]]))
                 "May_2019.tif" = inr [[Some 0%Q; Some 0%Q]]) by reflexivity.
  rewrite El in Hl. rewrite Ee in He. injection Hl as <-. injection He as <-.
  exists t. split; [exact Ht|]. split; [exact Ha|]. split; [exact Hm|].
  intros r Hin. destruct (Hr r Hin) as (Hz & vs & _ & _ & _ & Hc & _).
  split; [exact Hz | exact Hc].
Defined.

(** C8, as stated, fails: a survey with a rise above the threshold and no
    fall has an erosion raster without a cell equal to 1, and its
    statistics table is not empty. *)
Lemma no_erosion_table_not_empty :
  ∃ e' t,
    DoDfin_default (1 # 5) (survey [[Some 1%Q]] [[Some 0%Q]]) = Done tt e' ∧
    workspace e' !! "ero2019"%string = Some (IntRaster [[Some 0]]) ∧
    workspace e' !! "ZonalSt_ero2019"%string = Some (TableData t) ∧
    Value <$> rows t = [0].
Proof.
  eexists _, _. split; [apply DoDfin_default_run|].
  split; [vm_compute; reflexivity|].
  split; [apply lookup_insert_eq|]. vm_compute. reflexivity.
Qed.

Lemma no_erosion_run_witness :
  ∃ e' t,
    DoDfin_default (1 # 5) (survey [[Some 1%Q]] [[Some 0%Q]]) = Done tt e' ∧
    workspace e' !! "ZonalSt_ero2019"%string = Some (TableData t) ∧
    (∀ r, r ∈ rows t →
       Value r = 0 ∧ volume_of r = Some (Some (AREA r * MEDIAN r)%Q)) ∧
    (rows t = [] ↔
       ∀ i j, cell_at (erosion_of [[Some 1%Q]] [[Some 0%Q]] (1 # 5)) i j ≠ Some (Some 0)).
Proof.
  apply (no_erosion_run 1%Q lower_median float_of_decimal "August_2019.tif" "May_2019.tif" (1 # 5)
           "Aug_May2019" "thres2019" "Reclass_thre2019" "thres_fin2019" "ero2019"
           "ZonalSt_ero2019" (survey [[Some 1%Q]] [[Some 0%Q]])
           [[Some 1%Q]] [[Some 0%Q]] eq_refl eq_refl).
  intros [|i] [|j]; discriminate.
Defined.

(** C4, as stated, fails: a run with [mLoD = -1] completes, with the
    threshold mask, the filtered difference and the statistics table
    written. *)
Lemma negative_mLoD_not_rejected :
  ∃ e',
    DoDfin_default (-1) (survey [[Some (1 # 10)%Q]] [[Some 0%Q]]) = Done tt e' ∧
    workspace e' !! "thres2019"%string = Some (IntRaster [[Some 1]]) ∧
    workspace e' !! "thres_fin2019"%string = Some (FloatRaster [[Some (1 # 10)%Q]]) ∧
    is_Some (workspace e' !! "ZonalSt_ero2019"%string).
Proof.
  eexists. split; [apply DoDfin_default_run|].
  split; [vm_compute; reflexivity|].
  split; [vm_compute; reflexivity|].
  eexists. apply lookup_insert_eq.
Qed.

Lemma negative_mLoD_run_witness :
  ∃ e',
    DoDfin_default (-1) (survey [[Some (1 # 10)%Q]] [[Some 0%Q]]) = Done tt e' ∧
    (∀ name, name ∈ ["Aug_May2019"; "thres2019"; "Reclass_thre2019";
                     "thres_fin2019"; "ero2019"; "ZonalSt_ero2019"]%string →
             is_Some (workspace e' !! name)) ∧
    (∀ i j v, cell_at (dod [[Some (1 # 10)%Q]] [[Some 0%Q]]) i j = Some (Some v) →
              cell_at (dod_mask (dod [[Some (1 # 10)%Q]] [[Some 0%Q]]) (-1)) i j
                = Some (Some 1)).
Proof.
  apply (negative_mLoD_run 1%Q lower_median float_of_decimal "August_2019.tif" "May_2019.tif" (-1)
           "Aug_May2019" "thres2019" "Reclass_thre2019" "thres_fin2019" "ero2019"
           "ZonalSt_ero2019" (survey [[Some (1 # 10)%Q]] [[Some 0%Q]])
           [[Some (1 # 10)%Q]] [[Some 0%Q]]); reflexivity.
Defined.

(** C5, as stated, fails: a run on a 2 x 2 raster and a 1 x 1 raster
    completes, the difference being taken on the one cell they share. *)
Lemma mismatched_grids_not_rejected :
  ∃ e',
    DoDfin_default (1 # 5)
      (survey [[Some 1%Q; Some 2%Q]; [Some 3%Q; Some 4%Q]] [[Some 0%Q]]) = Done tt e' ∧
    workspace e' !! "Aug_May2019"%string = Some (FloatRaster [[Some 1%Q]]) ∧
    is_Some (workspace e' !! "ZonalSt_ero2019"%string).
Proof.
  eexists. split; [apply DoDfin_default_run|].
  split; [vm_compute; reflexivity|].
  eexists. apply lookup_insert_eq.
Qed.

Lemma difference_on_common_cells_witness :
  ∃ e',
    DoDfin_default (1 # 5)
      (survey [[Some 1%Q; Some 2%Q]; [Some 3%Q; Some 4%Q]] [[Some 0%Q]]) = Done tt e' ∧
    (∀ name, name ∈ ["Aug_May2019"; "thres2019"; "Reclass_thre2019";
                     "thres_fin2019"; "ero2019"; "ZonalSt_ero2019"]%string →
             is_Some (workspace e' !! name)).
Proof.
  destruct (difference_on_common_cells 1%Q lower_median float_of_decimal "August_2019.tif"
              "May_2019.tif" (1 # 5) "Aug_May2019" "thres2019" "Reclass_thre2019"
              "thres_fin2019" "ero2019" "ZonalSt_ero2019"
              (survey [[Some 1%Q; Some 2%Q]; [Some 3%Q; Some 4%Q]] [[Some 0%Q]])
              [[Some 1%Q; Some 2%Q]; [Some 3%Q; Some 4%Q]] [[Some 0%Q]]
              eq_refl eq_refl)
    as (e' & Hrun & Hnames & _).
  exists e'. split; [exact Hrun | exact Hnames].
Defined.

(** ** A 3 x 3 survey *)

(** Differences [0.5 -0.5 0.1 / 0.3 -0.3 0 / 0.05 -0.05 0.25] against a flat
    earlier surface, [mLoD = 0.2]. *)
Example survey_3x3_mask :
  dod_mask (dod [[Some (1 # 2); Some (-1 # 2); Some (1 # 10)];
                 [Some (3 # 10); Some (-3 # 10); Some 0];
                 [Some (1 # 20); Some (-1 # 20); Some (1 # 4)]]%Q
                [[Some 0; Some 0; Some 0]; [Some 0; Some 0; Some 0];
                 [Some 0; Some 0; Some 0]]%Q) (1 # 5)
    = [[Some 1; Some 1; Some 0]; [Some 1; Some 1; Some 0]; [Some 0; Some 0; Some 1]].
Proof. vm_compute. reflexivity. Qed.

Example survey_3x3_erosion :
  erosion_of [[Some (1 # 2); Some (-1 # 2); Some (1 # 10)];
              [Some (3 # 10); Some (-3 # 10); Some 0];
              [Some (1 # 20); Some (-1 # 20); Some (1 # 4)]]%Q
             [[Some 0; Some 0; Some 0]; [Some 0; Some 0; Some 0];
              [Some 0; Some 0; Some 0]]%Q (1 # 5)
    = [[Some 0; Some 1; None]; [Some 0; Some 1; None]; [None; None; Some 0]].
Proof. vm_compute. reflexivity. Qed.

(** * Further properties of the raster stages *)

Lemma filtered_cell_Some (m : Q) (c : option Q) (v : Q) :
  filtered_cell m c = Some v ↔ c = Some v ∧ ((m < v)%Q ∨ (v < - m)%Q).
Proof.
  rewrite filtered_cell_value. split.
  - destruct (mask_cell m c) as [z|] eqn:E; [|discriminate].
    destruct z as [|[p|p|]|p]; try discriminate.
    intros ->. apply mask_cell_true in E as (v' & [= <-] & H). done.
  - intros [-> H].
    assert (E : mask_cell m (Some v) = Some 1) by (apply mask_cell_true; eauto).
    by rewrite E.
Qed.

Lemma filtered_cell_None (m : Q) (c : option Q) :
  filtered_cell m c = None ↔
    c = None ∨ ∃ v, c = Some v ∧ (- m <= v)%Q ∧ (v <= m)%Q.
Proof.
  split.
  - intros H. destruct c as [v|]; [right | by left].
    exists v. split; [reflexivity|].
    destruct (Qlt_le_dec m v) as [H1|H1].
    { assert (filtered_cell m (Some v) = Some v) by (apply filtered_cell_Some; eauto).
      congruence. }
    destruct (Qlt_le_dec v (- m)) as [H2|H2]; [|done].
    assert (filtered_cell m (Some v) = Some v) by (apply filtered_cell_Some; eauto).
    congruence.
  - intros [-> | (v & -> & H1 & H2)]; [reflexivity|].
    destruct (filtered_cell m (Some v)) as [w|] eqn:E; [|reflexivity].
    apply filtered_cell_Some in E as [[= <-] [H | H]]; lra.
Qed.

(** The erosion value of a cell of the difference raster, through the
    threshold, the reclassification, the product and [Con]. *)
Lemma erosion_filtered_one (m : Q) (c : option Q) :
  (0 <= m)%Q →
  erosion_cell (filtered_cell m c) = Some 1 ↔ ∃ v, c = Some v ∧ (v < - m)%Q.
Proof.
  intros Hm. rewrite erosion_cell_one. split.
  - intros (v & Hf & Hv). apply filtered_cell_Some in Hf as [-> H].
    exists v. split; [reflexivity|]. destruct H; [lra | done].
  - intros (v & -> & Hv). exists v. split; [|lra].
    apply filtered_cell_Some. auto.
Qed.

Lemma erosion_filtered_zero (m : Q) (c : option Q) :
  (0 <= m)%Q →
  erosion_cell (filtered_cell m c) = Some 0 ↔ ∃ v, c = Some v ∧ (m < v)%Q.
Proof.
  intros Hm. rewrite erosion_cell_zero. split.
  - intros (v & Hf & Hv). apply filtered_cell_Some in Hf as [-> H].
    exists v. split; [reflexivity|]. destruct H; [done | lra].
  - intros (v & -> & Hv). exists v. split; [|lra].
    apply filtered_cell_Some. auto.
Qed.

(** X1: swapping the two surveys negates the difference: where one
    difference has a value the other has the opposite value, and the two
    are NoData, or without a cell, at the same positions. *)
Theorem dod_antisymmetric (A B : Grid Q) (i j : nat) :
  (∀ v, cell_at (dod A B) i j = Some (Some v) →
        ∃ w, cell_at (dod B A) i j = Some (Some w) ∧ (v == - w)%Q) ∧
  (cell_at (dod A B) i j = Some None ↔ cell_at (dod B A) i j = Some None) ∧
  (cell_at (dod A B) i j = None ↔ cell_at (dod B A) i j = None).
Proof.
  rewrite !cell_at_dod.
  destruct (cell_at A i j) as [[x|]|], (cell_at B i j) as [[y|]|]; cbn;
    (split; [|split]); try done.
  intros v [= <-]. exists (y - x)%Q. split; [reflexivity | ring].
Qed.

(** X2: the filtered raster holds exactly the differences beyond the
    threshold, unchanged: a cell has the value [v] there if and only if the
    difference has the value [v] at that cell and [v > mLoD] or
    [v < -mLoD]. *)
Theorem filtered_exactly_significant (later earlier : Grid Q) (mLoD : Q)
    (i j : nat) (v : Q) :
  cell_at (filtered_of later earlier mLoD) i j = Some (Some v) ↔
    cell_at (dod later earlier) i j = Some (Some v) ∧
    ((mLoD < v)%Q ∨ (v < - mLoD)%Q).
Proof.
  rewrite cell_at_filtered_of.
  destruct (cell_at (dod later earlier) i j) as [c|]; cbn.
  - split.
    + intros [= H]. apply filtered_cell_Some in H as [-> H]. done.
    + intros [[= ->] H]. f_equal. apply filtered_cell_Some. done.
  - split; [discriminate | by intros [? _]].
Qed.

(** X3: the binary classification is 1 or NoData and nothing else, and it
    is 1 exactly where the threshold mask is 1. *)
Theorem binary_one_or_nodata (d : Grid Q) (mLoD : Q) (i j : nat) :
  (∀ z, cell_at (dod_binary (dod_mask d mLoD)) i j = Some (Some z) → z = 1) ∧
  (cell_at (dod_binary (dod_mask d mLoD)) i j = Some (Some 1) ↔
     cell_at (dod_mask d mLoD) i j = Some (Some 1)).
Proof.
  rewrite cell_at_dod_binary, cell_at_dod_mask.
  destruct (cell_at d i j) as [[v|]|]; cbn; [|done|done].
  destruct (Qltb mLoD v), (Qltb v (- mLoD)); cbn; split; (done || by intros z [= <-]).
Qed.

(** X4: for [mLoD >= 0] the erosion raster of a run is 1 exactly where the
    difference has a value below [-mLoD], 0 exactly where it has a value
    above [mLoD], and NoData at every other cell of the difference. *)
Theorem erosion_is_loss_beyond_threshold (later earlier : Grid Q) (mLoD : Q)
    (i j : nat) :
  (0 <= mLoD)%Q →
  (cell_at (erosion_of later earlier mLoD) i j = Some (Some 1) ↔
     ∃ v, cell_at (dod later earlier) i j = Some (Some v) ∧ (v < - mLoD)%Q) ∧
  (cell_at (erosion_of later earlier mLoD) i j = Some (Some 0) ↔
     ∃ v, cell_at (dod later earlier) i j = Some (Some v) ∧ (mLoD < v)%Q) ∧
  (cell_at (erosion_of later earlier mLoD) i j = Some None ↔
     cell_at (dod later earlier) i j = Some None ∨
     ∃ v, cell_at (dod later earlier) i j = Some (Some v) ∧
          (- mLoD <= v)%Q ∧ (v <= mLoD)%Q).
Proof.
  intros Hm. rewrite cell_at_erosion_of, cell_at_filtered_of.
  destruct (cell_at (dod later earlier) i j) as [c|]; cbn.
  - split; [|split].
    + split.
      * intros [= H]. apply erosion_filtered_one in H as (v & -> & Hv); eauto.
      * intros (v & [= ->] & Hv). f_equal. apply erosion_filtered_one; eauto.
    + split.
      * intros [= H]. apply erosion_filtered_zero in H as (v & -> & Hv); eauto.
      * intros (v & [= ->] & Hv). f_equal. apply erosion_filtered_zero; eauto.
    + split.
      * intros [= H]. apply erosion_cell_nodata, filtered_cell_None in H
          as [-> | (v & -> & H)]; eauto.
      * intros H. f_equal. apply erosion_cell_nodata, filtered_cell_None.
        destruct H as [[= ->] | (v & [= ->] & H)]; eauto.
  - split; [|split]; split; try discriminate.
    + by intros (v & ? & _).
    + by intros (v & ? & _).
    + by intros [? | (v & ? & _)].
Qed.

Lemma erosion_is_loss_beyond_threshold_witness :
  cell_at (erosion_of [[Some (-1)%Q]] [[Some 0%Q]] (1 # 5)) 0 0 = Some (Some 1).
Proof.
  apply (proj1 (erosion_is_loss_beyond_threshold [[Some (-1)%Q]] [[Some 0%Q]] (1 # 5)
                  0 0 ltac:(discriminate))).
  exists (-1 # 1)%Q. split; reflexivity.
Defined.

(** X5: the threshold mask, the binary classification, the filtered
    difference and the erosion raster of a run all have a cell exactly
    where the difference raster has one. *)
Theorem derived_rasters_share_extent (later earlier : Grid Q) (mLoD : Q)
    (i j : nat) :
  let d := dod later earlier in
  (is_Some (cell_at (dod_mask d mLoD) i j) ↔ is_Some (cell_at d i j)) ∧
  (is_Some (cell_at (dod_binary (dod_mask d mLoD)) i j) ↔ is_Some (cell_at d i j)) ∧
  (is_Some (cell_at (filtered_of later earlier mLoD) i j) ↔ is_Some (cell_at d i j)) ∧
  (is_Some (cell_at (erosion_of later earlier mLoD) i j) ↔ is_Some (cell_at d i j)).
Proof.
  cbn zeta.
  rewrite cell_at_erosion_of, cell_at_filtered_of, cell_at_dod_binary, cell_at_dod_mask.
  rewrite !fmap_is_Some. done.
Qed.

Lemma mask_cell_opp (m v w : Q) :
  (v == - w)%Q → mask_cell m (Some v) = mask_cell m (Some w).
Proof.
  intros Hvw.
  destruct (mask_cell m (Some w)) as [z|] eqn:E; [|discriminate].
  assert (Hz : z = 0 ∨ z = 1).
  { cbn in E. destruct (Qltb m w), (Qltb w (- m)); cbn in E;
      injection E as <-; auto. }
  destruct Hz as [-> | ->].
  - apply mask_cell_false in E as (? & [= <-] & H1 & H2).
    apply mask_cell_false. exists v. split; [reflexivity|]. lra.
  - apply mask_cell_true in E as (? & [= <-] & H).
    apply mask_cell_true. exists v. split; [reflexivity|]. destruct H; [right | left]; lra.
Qed.

(** X6: swapping the two surveys leaves the threshold mask as it is, for
    every threshold, and for [mLoD >= 0] it turns erosion into accretion:
    the erosion raster is 1 for one order of the surveys exactly where it
    is 0 for the other. *)
Theorem swapped_surveys (A B : Grid Q) (mLoD : Q) (i j : nat) :
  cell_at (dod_mask (dod A B) mLoD) i j = cell_at (dod_mask (dod B A) mLoD) i j ∧
  ((0 <= mLoD)%Q →
   (cell_at (erosion_of A B mLoD) i j = Some (Some 1) ↔
      cell_at (erosion_of B A mLoD) i j = Some (Some 0))).
Proof.
  rewrite !cell_at_erosion_of, !cell_at_filtered_of, !cell_at_dod_mask,
    !cell_at_dod.
  destruct (cell_at A i j) as [[x|]|], (cell_at B i j) as [[y|]|]; cbn;
    try (split; [reflexivity | intros _; split; discriminate]).
  split.
  - f_equal. apply (mask_cell_opp mLoD (x - y) (y - x)). ring.
  - intros Hm.
    change (Some (erosion_cell (filtered_cell mLoD (Some (x - y)%Q))) = Some (Some 1) ↔
            Some (erosion_cell (filtered_cell mLoD (Some (y - x)%Q))) = Some (Some 0)).
    split.
    + intros [= H]. apply erosion_filtered_one in H as (v & [= <-] & Hv); [|done].
      f_equal. apply erosion_filtered_zero; [done|]. eexists. split; [reflexivity|]. lra.
    + intros [= H]. apply erosion_filtered_zero in H as (v & [= <-] & Hv); [|done].
      f_equal. apply erosion_filtered_one; [done|]. eexists. split; [reflexivity|]. lra.
Qed.

Lemma swapped_surveys_witness :
  cell_at (dod_mask (dod [[Some 1%Q]] [[Some 0%Q]]) (-1)) 0 0 =
    cell_at (dod_mask (dod [[Some 0%Q]] [[Some 1%Q]]) (-1)) 0 0 ∧
  (cell_at (erosion_of [[Some 1%Q]] [[Some 0%Q]] (1 # 5)) 0 0 = Some (Some 1) ↔
     cell_at (erosion_of [[Some 0%Q]] [[Some 1%Q]] (1 # 5)) 0 0 = Some (Some 0)).
Proof.
  split.
  - exact (proj1 (swapped_surveys [[Some 1%Q]] [[Some 0%Q]] (-1) 0 0)).
  - apply (proj2 (swapped_surveys [[Some 1%Q]] [[Some 0%Q]] (1 # 5) 0 0)).
    discriminate.
Defined.

(** X7: raising the threshold only removes cells: for [m1 <= m2] a value of
    the filtered raster for [m2] is the value of the filtered raster for
    [m1] at that cell, and an erosion cell for [m2] is an erosion cell for
    [m1]. *)
Theorem filtered_and_erosion_monotone (later earlier : Grid Q) (m1 m2 : Q)
    (i j : nat) :
  (m1 <= m2)%Q →
  (∀ v, cell_at (filtered_of later earlier m2) i j = Some (Some v) →
        cell_at (filtered_of later earlier m1) i j = Some (Some v)) ∧
  (cell_at (erosion_of later earlier m2) i j = Some (Some 1) →
   cell_at (erosion_of later earlier m1) i j = Some (Some 1)).
Proof.
  intros Hle.
  assert (Hf : ∀ v, cell_at (filtered_of later earlier m2) i j = Some (Some v) →
                    cell_at (filtered_of later earlier m1) i j = Some (Some v)).
  { intros v. rewrite !cell_at_filtered_of.
    destruct (cell_at (dod later earlier) i j) as [c|]; [|discriminate].
    cbn. intros [= H]. f_equal.
    apply filtered_cell_Some in H as [-> H]. apply filtered_cell_Some.
    split; [reflexivity|]. destruct H; [left | right]; lra. }
  split; [exact Hf|].
  rewrite !cell_at_erosion_of.
  destruct (cell_at (filtered_of later earlier m2) i j) as [c|] eqn:E; [|discriminate].
  cbn. intros [= H]. apply erosion_cell_one in H as (v & -> & Hv).
  rewrite (Hf v eq_refl). cbn [fmap option_fmap option_map]. f_equal.
  apply erosion_cell_one. eauto.
Qed.

Lemma filtered_and_erosion_monotone_witness :
  cell_at (erosion_of [[Some (-1)%Q]] [[Some 0%Q]] (1 # 10)) 0 0 = Some (Some 1).
Proof.
  apply (proj2 (filtered_and_erosion_monotone [[Some (-1)%Q]] [[Some 0%Q]]
                  (1 # 10) (1 # 5) 0 0 ltac:(discriminate))).
  reflexivity.
Defined.

(** * Further properties of the run *)

Lemma foldr_Qmin2_elem (v : Q) (vs : list Q) : foldr Qmin2 v vs ∈ v :: vs.
Proof.
  induction vs as [|w vs IH]; cbn; [left|].
  unfold Qmin2 at 1. destruct (Qle_bool w (foldr Qmin2 v vs)).
  - right. left.
  - apply elem_of_cons in IH as [-> | IH]; [left | right; by right].
Qed.

Lemma foldr_Qmax2_elem (v : Q) (vs : list Q) : foldr Qmax2 v vs ∈ v :: vs.
Proof.
  induction vs as [|w vs IH]; cbn; [left|].
  unfold Qmax2 at 1. destruct (Qle_bool w (foldr Qmax2 v vs)).
  - apply elem_of_cons in IH as [-> | IH]; [left | right; by right].
  - right. left.
Qed.

Lemma zonal_row_extremes (cell_area : Q) (median : list Q → Q) (z : Z)
    (vs : list Q) (r : StatRow) :
  zonal_row cell_area median z vs = Some r → MIN r ∈ vs ∧ MAX r ∈ vs.
Proof.
  destruct vs as [|v vs']; [discriminate|].
  cbn. intros [= <-]. cbn. split; [apply foldr_Qmin2_elem | apply foldr_Qmax2_elem].
Qed.

Lemma NoDup_zone_ids (ps : list (option Z * option Q)) : NoDup (zone_ids ps).
Proof.
  unfold zone_ids. rewrite merge_sort_Permutation. apply NoDup_remove_dups.
Qed.

Lemma NoDup_omap_Value (f : Z → option StatRow) (ids : list Z) :
  (∀ z r, f z = Some r → Value r = z) →
  NoDup ids → NoDup (Value <$> omap f ids).
Proof.
  intros Hf Hnd. induction Hnd as [|z ids Hz Hnd IH]; [constructor|].
  cbn [omap list_omap]. destruct (f z) as [r|] eqn:E; [|exact IH].
  rewrite fmap_cons. constructor; [|exact IH].
  rewrite (Hf z r E). intros Hin. apply Hz.
  apply list_elem_of_fmap in Hin as (r' & -> & Hr').
  apply list_elem_of_omap in Hr' as (z' & Hz' & Hrow).
  by rewrite (Hf z' r' Hrow).
Qed.

Lemma NoDup_zonal_rows (cell_area : Q) (median : list Q → Q)
    (ps : list (option Z * option Q)) :
  NoDup (Value <$> zonal_rows cell_area median DATA ps).
Proof.
  unfold zonal_rows. apply NoDup_omap_Value; [|apply NoDup_zone_ids].
  intros z r Hrow. by apply zonal_row_Some in Hrow as (_ & ? & _).
Qed.

Lemma user_fields_stats_of (cell_area : Q) (median : list Q → Q)
    (later earlier : Grid Q) (mLoD : Q) :
  user_fields (stats_of cell_area median later earlier mLoD) = ["Volume"%string].
Proof.
  unfold stats_of, calculate_field, add_field, zonal_table. cbn [user_fields].
  by rewrite bool_decide_eq_false_2 by apply not_elem_of_nil.
Qed.

Section RunExtras.

Variable cell_area : Q.
Variable median : list Q → Q.
Variable float_of_str : string → option Q.

Variables dem_later dem_earlier : string.
Variable mLoD : Q.
Variables dod_raw dod_threshold_mask dod_reclass dod_thresholded
  erosion_mask erosion_stats : string.

Local Abbreviation run :=
  (DoDfin cell_area median float_of_str dem_later dem_earlier (PyFloat mLoD)
     dod_raw dod_threshold_mask dod_reclass dod_thresholded erosion_mask
     erosion_stats).

Local Abbreviation written later earlier w :=
  (outputs cell_area median later earlier mLoD dod_raw dod_threshold_mask
     dod_reclass dod_thresholded erosion_mask erosion_stats w).

Local Abbreviation names :=
  [dod_raw; dod_threshold_mask; dod_reclass; dod_thresholded;
   erosion_mask; erosion_stats].

Lemma written_frame (later earlier : Grid Q) (w : gmap string Artifact)
    (name : string) :
  name ∉ names → written later earlier w !! name = w !! name.
Proof.
  intros Hnot. rewrite !not_elem_of_cons in Hnot.
  destruct Hnot as (? & ? & ? & ? & ? & ? & _).
  unfold outputs. by rewrite !lookup_insert_ne.
Qed.

(** Every record of the table is taken over values of the filtered raster
    found at cells of its zone. *)
Lemma stats_rows_extremes (later earlier : Grid Q) (r : StatRow) (x : Q) :
  r ∈ rows (stats_of cell_area median later earlier mLoD) →
  x = MIN r ∨ x = MAX r →
  ∃ i j, cell_at (erosion_of later earlier mLoD) i j = Some (Some (Value r)) ∧
         cell_at (filtered_of later earlier mLoD) i j = Some (Some x).
Proof.
  rewrite rows_stats_of. intros (r0 & -> & Hr0)%list_elem_of_fmap Hx.
  apply elem_of_zonal_rows in Hr0 as (z & _ & Hrow).
  pose proof (zonal_row_extremes _ _ _ _ _ Hrow) as [Hmin Hmax].
  apply zonal_row_Some in Hrow as (_ & Hz & _).
  cbn [with_volume Value MIN MAX] in *. rewrite Hz.
  assert (Hin : x ∈ zone_data DATA
                  (zone_cells z (overlay (erosion_of later earlier mLoD)
                                   (filtered_of later earlier mLoD))))
    by (destruct Hx as [-> | ->]; done).
  apply elem_of_zone_data, elem_of_overlay in Hin. exact Hin.
Qed.

(** A survey without a difference beyond the threshold has no record. *)
Lemma quiet_rows_nil (later earlier : Grid Q) :
  (∀ i j v, cell_at (dod later earlier) i j = Some (Some v) →
            (- mLoD <= v)%Q ∧ (v <= mLoD)%Q) →
  rows (stats_of cell_area median later earlier mLoD) = [].
Proof.
  intros Hquiet.
  destruct (rows (stats_of cell_area median later earlier mLoD)) as [|r rs] eqn:E;
    [reflexivity|].
  assert (Hr : r ∈ rows (stats_of cell_area median later earlier mLoD))
    by (rewrite E; left).
  destruct (stats_rows_extremes later earlier r (MIN r) Hr) as (i & j & _ & Hf);
    [by left|].
  rewrite cell_at_filtered_of in Hf.
  destruct (cell_at (dod later earlier) i j) as [c|] eqn:Ec; [|discriminate].
  cbn in Hf. injection Hf as Hf. apply filtered_cell_Some in Hf as [-> H].
  destruct (Hquiet i j _ Ec). destruct H; lra.
Qed.

(** X8: when no difference of the two rasters lies beyond the threshold
    the run completes and leaves a statistics table without records, the
    [Volume] field added all the same. *)
Theorem quiet_survey_empty_table (e : Env) (later earlier : Grid Q) :
  raster_in (workspace e) dem_later = inr later →
  raster_in (workspace e) dem_earlier = inr earlier →
  (∀ i j v, cell_at (dod later earlier) i j = Some (Some v) →
            (- mLoD <= v)%Q ∧ (v <= mLoD)%Q) →
  ∃ e' t,
    run e = Done tt e' ∧
    workspace e' !! erosion_stats = Some (TableData t) ∧
    rows t = [] ∧ user_fields t = ["Volume"%string].
Proof.
  intros H1 H2 Hquiet. eexists _, (stats_of cell_area median later earlier mLoD).
  split; [by apply DoDfin_completes|]. split; [apply written_stats|].
  split; [by apply quiet_rows_nil | apply user_fields_stats_of].
Qed.

(** X9: a run that reads the same raster under both input names, with
    [mLoD >= 0], completes with a statistics table without records: every
    difference is zero, none is significant. *)
Theorem unchanged_survey_empty_table (e : Env) (g : Grid Q) :
  (0 <= mLoD)%Q →
  raster_in (workspace e) dem_later = inr g →
  raster_in (workspace e) dem_earlier = inr g →
  ∃ e' t,
    run e = Done tt e' ∧
    workspace e' !! erosion_stats = Some (TableData t) ∧
    rows t = [] ∧
    (∀ i j v, cell_at (dod g g) i j = Some (Some v) → (v == 0)%Q) ∧
    (∀ i j, value_at (erosion_of g g mLoD) i j = None).
Proof.
  intros Hm H1 H2.
  assert (Hzero : ∀ i j v, cell_at (dod g g) i j = Some (Some v) → (v == 0)%Q).
  { intros i j v. rewrite cell_at_dod.
    destruct (cell_at g i j) as [[x|]|]; cbn; try discriminate.
    intros [= <-]. ring. }
  assert (Hquiet : ∀ i j v, cell_at (dod g g) i j = Some (Some v) →
                            (- mLoD <= v)%Q ∧ (v <= mLoD)%Q).
  { intros i j v Hv. apply Hzero in Hv. split; lra. }
  eexists _, (stats_of cell_area median g g mLoD).
  split; [by apply DoDfin_completes|]. split; [apply written_stats|].
  split; [by apply quiet_rows_nil|]. split; [exact Hzero|].
  intros i j. unfold value_at. rewrite cell_at_erosion_of, cell_at_filtered_of.
  destruct (cell_at (dod g g) i j) as [c|] eqn:Ec; [|reflexivity].
  cbn. apply erosion_cell_nodata, filtered_cell_None.
  destruct c as [v|]; [right | by left].
  exists v. split; [reflexivity|]. by apply (Hquiet i j).
Qed.

(** X10: a run touches nothing but its six outputs: whatever the workspace
    held under any other name is still there afterwards. *)
Theorem run_frame (e e' : Env) (name : string) :
  run e = Done tt e' →
  name ∉ names →
  workspace e' !! name = workspace e !! name.
Proof.
  intros Hrun Hnot.
  apply DoDfin_Done_inv in Hrun as (later & earlier & _ & _ & ->).
  cbn [workspace]. by apply written_frame.
Qed.

(** X11: when the six output names are pairwise distinct, a run that
    completes leaves each artifact under its own name: the difference, the
    threshold mask, the binary classification, the filtered difference,
    the erosion raster and the statistics table. *)
Theorem run_artifacts (e e' : Env) :
  run e = Done tt e' →
  NoDup names →
  ∃ later earlier,
    raster_in (workspace e) dem_later = inr later ∧
    raster_in (workspace e) dem_earlier = inr earlier ∧
    workspace e' !! dod_raw = Some (FloatRaster (dod later earlier)) ∧
    workspace e' !! dod_threshold_mask =
      Some (IntRaster (dod_mask (dod later earlier) mLoD)) ∧
    workspace e' !! dod_reclass =
      Some (IntRaster (dod_binary (dod_mask (dod later earlier) mLoD))) ∧
    workspace e' !! dod_thresholded =
      Some (FloatRaster (filtered_of later earlier mLoD)) ∧
    workspace e' !! erosion_mask =
      Some (IntRaster (erosion_of later earlier mLoD)) ∧
    workspace e' !! erosion_stats =
      Some (TableData (stats_of cell_area median later earlier mLoD)).
Proof.
  intros Hrun Hnd.
  apply DoDfin_Done_inv in Hrun as (later & earlier & H1 & H2 & ->).
  exists later, earlier. split; [done|]. split; [done|].
  rewrite !NoDup_cons, !not_elem_of_cons in Hnd.
  destruct Hnd as ((? & ? & ? & ? & ? & _) & (? & ? & ? & ? & _) &
                   (? & ? & ? & _) & (? & ? & _) & (? & _) & _).
  cbn [workspace]. unfold outputs.
  repeat split;
    repeat (first [rewrite lookup_insert_eq; reflexivity
                  | rewrite lookup_insert_ne by congruence]).
Qed.

(** X12: the outcome of a run, case by case.  If the later raster cannot
    be read the run fails with that error, and so it does when the later
    raster can be read and the earlier one cannot; nothing was written by
    then.  The error says that the name is missing from the workspace, or
    that it holds a table.  If both rasters can be read and [mLoD] is a
    string that [float] rejects, the run fails with [ValueError], the raw
    difference already written under [dod_raw] and nothing else.  If both
    can be read and [mLoD] is a number or a string that [float] converts,
    the run completes with all its outputs written, whatever was stored
    under their names before and whether overwriting was allowed.  In each
    case overwriting is switched on afterwards. *)
Theorem run_outcome (threshold : PyValue) (e : Env) :
  let go := DoDfin cell_area median float_of_str dem_later dem_earlier threshold
              dod_raw dod_threshold_mask dod_reclass dod_thresholded
              erosion_mask erosion_stats in
  (∀ err, raster_in (workspace e) dem_later = inl err →
     go e = Failed err {| overwriteOutput := true; workspace := workspace e |}) ∧
  (∀ later err,
     raster_in (workspace e) dem_later = inr later →
     raster_in (workspace e) dem_earlier = inl err →
     go e = Failed err {| overwriteOutput := true; workspace := workspace e |}) ∧
  (∀ name err, raster_in (workspace e) name = inl err →
     (err = DoesNotExist name ∧ workspace e !! name = None) ∨
     (err = NotARaster name ∧ ∃ t, workspace e !! name = Some (TableData t))) ∧
  (∀ later earlier s,
     raster_in (workspace e) dem_later = inr later →
     raster_in (workspace e) dem_earlier = inr earlier →
     threshold = PyStr s → float_of_str s = None →
     go e = Failed (ValueError s)
              {| overwriteOutput := true;
                 workspace := <[dod_raw := FloatRaster (dod later earlier)]>
                                (workspace e) |}) ∧
  (∀ later earlier m,
     raster_in (workspace e) dem_later = inr later →
     raster_in (workspace e) dem_earlier = inr earlier →
     threshold = PyFloat m ∨ (∃ s, threshold = PyStr s ∧ float_of_str s = Some m) →
     go e = Done tt {| overwriteOutput := true;
                       workspace :=
                         outputs cell_area median later earlier m dod_raw
                           dod_threshold_mask dod_reclass dod_thresholded
                           erosion_mask erosion_stats (workspace e) |}).
Proof.
  cbn zeta. repeat split.
  - intros err H. by rewrite DoDfin_run, H.
  - intros later err H1 H2. by rewrite DoDfin_run, H1, H2.
  - intros name err. unfold raster_in.
    destruct (workspace e !! name) as [[g | g | t]|]; intros [= <-]; eauto.
  - intros later earlier s H1 H2 -> Hs. rewrite DoDfin_run, H1, H2.
    cbn [float_value]. by rewrite Hs.
  - intros later earlier m H1 H2 Hm. rewrite DoDfin_run, H1, H2.
    destruct Hm as [-> | (s & -> & Hs)]; cbn [float_value]; [done | by rewrite Hs].
Qed.

(** X13: running again changes nothing, provided the inputs are not among
    the outputs: the second run completes in the very environment the
    first one left. *)
Theorem rerun_idempotent (e e' : Env) :
  run e = Done tt e' →
  dem_later ∉ names →
  dem_earlier ∉ names →
  run e' = Done tt e'.
Proof.
  intros Hrun Hl He.
  apply DoDfin_Done_inv in Hrun as (later & earlier & H1 & H2 & ->).
  rewrite DoDfin_run. cbn [workspace].
  rewrite (raster_in_lookup _ (workspace e) dem_later) by by apply written_frame.
  rewrite (raster_in_lookup _ (workspace e) dem_earlier) by by apply written_frame.
  rewrite H1, H2. do 2 f_equal. apply map_eq. intros name.
  destruct (decide (name ∈ names)) as [Hin | Hnot].
  - by apply written_indep.
  - by rewrite !written_frame.
Qed.

(** X14: the statistics table of a run has at most one record per zone
    value, hence at most two records. *)
Theorem stats_table_at_most_two (e e' : Env) (t : Table) :
  run e = Done tt e' →
  workspace e' !! erosion_stats = Some (TableData t) →
  NoDup (Value <$> rows t) ∧ (length (rows t) ≤ 2)%nat.
Proof.
  intros Hrun Ht.
  apply DoDfin_Done_inv in Hrun as (later & earlier & _ & _ & ->).
  cbn [workspace] in Ht. rewrite written_stats in Ht. injection Ht as <-.
  assert (Hnd : NoDup (Value <$> rows (stats_of cell_area median later earlier mLoD))).
  { rewrite rows_stats_of, <- list_fmap_compose. apply NoDup_zonal_rows. }
  split; [exact Hnd|].
  rewrite <- (length_fmap Value).
  change 2%nat with (length [0; 1]).
  apply submseteq_length, NoDup_submseteq; [exact Hnd|].
  intros z (r & -> & Hr)%list_elem_of_fmap.
  destruct (stats_rows_binary _ _ _ _ _ _ Hr) as [-> | ->];
    rewrite !elem_of_cons; auto.
Qed.

(** X15: the record of zone 1 is taken over losses only and the record of
    zone 0 over gains only: in zone 1 the minimum and the maximum are
    negative, in zone 0 neither is; for [mLoD >= 0] they lie beyond the
    threshold. *)
Theorem zone_records_signs (e e' : Env) (t : Table) (r : StatRow) :
  run e = Done tt e' →
  workspace e' !! erosion_stats = Some (TableData t) →
  r ∈ rows t →
  (Value r = 1 → (MIN r < 0)%Q ∧ (MAX r < 0)%Q) ∧
  (Value r = 0 → (0 <= MIN r)%Q ∧ (0 <= MAX r)%Q) ∧
  ((0 <= mLoD)%Q →
     (Value r = 1 → (MAX r < - mLoD)%Q) ∧ (Value r = 0 → (mLoD < MIN r)%Q)).
Proof.
  intros Hrun Ht Hr.
  apply DoDfin_Done_inv in Hrun as (later & earlier & _ & _ & ->).
  cbn [workspace] in Ht. rewrite written_stats in Ht. injection Ht as <-.
  assert (Hx : ∀ x, x = MIN r ∨ x = MAX r →
            ∃ c, erosion_cell (filtered_cell mLoD c) = Some (Value r) ∧
                 filtered_cell mLoD c = Some x).
  { intros x Hx.
    destruct (stats_rows_extremes later earlier r x Hr Hx) as (i & j & He & Hf).
    rewrite cell_at_erosion_of in He. rewrite cell_at_filtered_of in Hf, He.
    destruct (cell_at (dod later earlier) i j) as [c|]; [|discriminate].
    cbn in He, Hf. injection He as He. injection Hf as Hf. eauto. }
  destruct (Hx (MIN r)) as (c1 & He1 & Hf1); [by left|].
  destruct (Hx (MAX r)) as (c2 & He2 & Hf2); [by right|].
  split; [|split].
  - intros Hz. rewrite Hz in He1, He2.
    apply erosion_cell_one in He1 as (v1 & E1 & Hv1).
    apply erosion_cell_one in He2 as (v2 & E2 & Hv2).
    rewrite Hf1 in E1. rewrite Hf2 in E2.
    injection E1 as <-. injection E2 as <-. done.
  - intros Hz. rewrite Hz in He1, He2.
    apply erosion_cell_zero in He1 as (v1 & E1 & Hv1).
    apply erosion_cell_zero in He2 as (v2 & E2 & Hv2).
    rewrite Hf1 in E1. rewrite Hf2 in E2.
    injection E1 as <-. injection E2 as <-. done.
  - intros Hm. split; intros Hz.
    + rewrite Hz in He2. apply erosion_filtered_one in He2 as (v & -> & Hv); [|done].
      apply filtered_cell_Some in Hf2 as [[= <-] _]. done.
    + rewrite Hz in He1. apply erosion_filtered_zero in He1 as (v & -> & Hv); [|done].
      apply filtered_cell_Some in Hf1 as [[= <-] _]. done.
Qed.

End RunExtras.

(** ** The further properties on concrete surveys *)

Lemma dod_antisymmetric_witness :
  ∃ w, cell_at (dod [[Some 0%Q]] [[Some 1%Q]]) 0 0 = Some (Some w) ∧
       (1 - 0 == - w)%Q.
Proof.
  apply (proj1 (dod_antisymmetric [[Some 1%Q]] [[Some 0%Q]] 0 0) (1 - 0)%Q).
  reflexivity.
Defined.

Lemma quiet_survey_empty_table_witness :
  ∃ e' t,
    DoDfin_default (1 # 5) (survey [[Some (1 # 10)%Q]] [[Some 0%Q]]) = Done tt e' ∧
    workspace e' !! "ZonalSt_ero2019"%string = Some (TableData t) ∧
    rows t = [] ∧ user_fields t = ["Volume"%string].
Proof.
  apply (quiet_survey_empty_table 1%Q lower_median float_of_decimal "August_2019.tif" "May_2019.tif"
           (1 # 5) "Aug_May2019" "thres2019" "Reclass_thre2019" "thres_fin2019"
           "ero2019" "ZonalSt_ero2019" (survey [[Some (1 # 10)%Q]] [[Some 0%Q]])
           [[Some (1 # 10)%Q]] [[Some 0%Q]] eq_refl eq_refl).
  intros [|i] [|j] v; try discriminate.
  intros [= <-]. split; discriminate.
Defined.

Lemma unchanged_survey_empty_table_witness :
  ∃ e' t,
    DoDfin_default (1 # 5) (survey [[Some 3%Q; None]] [[Some 3%Q; None]]) = Done tt e' ∧
    workspace e' !! "ZonalSt_ero2019"%string = Some (TableData t) ∧
    rows t = [].
Proof.
  destruct (unchanged_survey_empty_table 1%Q lower_median float_of_decimal "August_2019.tif"
              "May_2019.tif" (1 # 5) "Aug_May2019" "thres2019" "Reclass_thre2019"
              "thres_fin2019" "ero2019" "ZonalSt_ero2019"
              (survey [[Some 3%Q; None]] [[Some 3%Q; None]]) [[Some 3%Q; None]]
              ltac:(discriminate) eq_refl eq_refl)
    as (e' & t & Hrun & Ht & Hrows & _).
  exists e', t. split; [exact Hrun | split; [exact Ht | exact Hrows]].
Defined.

Lemma run_frame_witness :
  workspace (survey_result [[Some 1%Q]] [[Some 0%Q]] (1 # 5)) !! "May_2019.tif"%string =
    workspace (survey [[Some 1%Q]] [[Some 0%Q]]) !! "May_2019.tif"%string.
Proof.
  apply (run_frame 1%Q lower_median float_of_decimal "August_2019.tif" "May_2019.tif" (1 # 5)
           "Aug_May2019" "thres2019" "Reclass_thre2019" "thres_fin2019" "ero2019"
           "ZonalSt_ero2019" _ _ "May_2019.tif" (DoDfin_default_run _ _ _)).
  by_decide.
Defined.

Lemma run_artifacts_witness :
  ∃ later earlier,
    workspace (survey_result [[Some 1%Q]] [[Some 0%Q]] (1 # 5)) !! "Aug_May2019"%string =
      Some (FloatRaster (dod later earlier)) ∧
    workspace (survey_result [[Some 1%Q]] [[Some 0%Q]] (1 # 5)) !! "ero2019"%string =
      Some (IntRaster (erosion_of later earlier (1 # 5))).
Proof.
  destruct (run_artifacts 1%Q lower_median float_of_decimal "August_2019.tif" "May_2019.tif" (1 # 5)
              "Aug_May2019" "thres2019" "Reclass_thre2019" "thres_fin2019" "ero2019"
              "ZonalSt_ero2019" (survey [[Some 1%Q]] [[Some 0%Q]])
              (survey_result [[Some 1%Q]] [[Some 0%Q]] (1 # 5))
              (DoDfin_default_run _ _ _) ltac:(by_decide))
    as (later & earlier & _ & _ & H1 & _ & _ & _ & H5 & _).
  exists later, earlier. split; [exact H1 | exact H5].
Defined.

Lemma rerun_idempotent_witness :
  DoDfin_default (1 # 5) (survey_result [[Some 1%Q]] [[Some 0%Q]] (1 # 5)) =
    Done tt (survey_result [[Some 1%Q]] [[Some 0%Q]] (1 # 5)).
Proof.
  apply (rerun_idempotent 1%Q lower_median float_of_decimal "August_2019.tif" "May_2019.tif" (1 # 5)
           "Aug_May2019" "thres2019" "Reclass_thre2019" "thres_fin2019" "ero2019"
           "ZonalSt_ero2019" (survey [[Some 1%Q]] [[Some 0%Q]]) _
           (DoDfin_default_run _ _ _)); by_decide.
Defined.

Lemma stats_table_at_most_two_witness :
  (length (rows (stats_of 1%Q lower_median [[Some 1%Q; Some (-1)%Q]]
                   [[Some 0%Q; Some 0%Q]] (1 # 5))) ≤ 2)%nat.
Proof.
  apply (stats_table_at_most_two 1%Q lower_median float_of_decimal "August_2019.tif" "May_2019.tif"
           (1 # 5) "Aug_May2019" "thres2019" "Reclass_thre2019" "thres_fin2019"
           "ero2019" "ZonalSt_ero2019"
           (survey [[Some 1%Q; Some (-1)%Q]] [[Some 0%Q; Some 0%Q]])
           (survey_result [[Some 1%Q; Some (-1)%Q]] [[Some 0%Q; Some 0%Q]] (1 # 5))
           _ (DoDfin_default_run _ _ _)).
  apply lookup_insert_eq.
Defined.

Lemma zone_records_signs_witness :
  (MIN loss_record < 0)%Q ∧ (MAX loss_record < 0)%Q.
Proof.
  apply (zone_records_signs 1%Q lower_median float_of_decimal "August_2019.tif" "May_2019.tif"
           (1 # 5) "Aug_May2019" "thres2019" "Reclass_thre2019" "thres_fin2019"
           "ero2019" "ZonalSt_ero2019"
           (survey [[Some (-1)%Q]] [[Some 0%Q]])
           (survey_result [[Some (-1)%Q]] [[Some 0%Q]] (1 # 5))
           (stats_of 1%Q lower_median [[Some (-1)%Q]] [[Some 0%Q]] (1 # 5))
           loss_record (DoDfin_default_run _ _ _)).
  - apply lookup_insert_eq.
  - assert (E : rows (stats_of 1%Q lower_median [[Some (-1)%Q]] [[Some 0%Q]] (1 # 5))
                = [loss_record]) by (vm_compute; reflexivity).
    rewrite E. left.
  - reflexivity.
Defined.


Lemma run_outcome_witness :
  DoDfin 1%Q lower_median float_of_decimal "August_2019.tif" "May_2019.tif"
    (PyStr "abc") "Aug_May2019" "thres2019" "Reclass_thre2019" "thres_fin2019"
    "ero2019" "ZonalSt_ero2019" (survey [[Some 1%Q]] [[Some 0%Q]]) =
  Failed (ValueError "abc")
    {| overwriteOutput := true;
       workspace := <["Aug_May2019"%string := FloatRaster (dod [[Some 1%Q]] [[Some 0%Q]])]>
                      (workspace (survey [[Some 1%Q]] [[Some 0%Q]])) |} ∧
  DoDfin 1%Q lower_median float_of_decimal "August_2019.tif" "May_2019.tif"
    (PyStr "0.2") "Aug_May2019" "thres2019" "Reclass_thre2019" "thres_fin2019"
    "ero2019" "ZonalSt_ero2019" (survey [[Some 1%Q]] [[Some 0%Q]]) =
  Done tt (survey_result [[Some 1%Q]] [[Some 0%Q]] (2 # 10)).
Proof.
  destruct (run_outcome 1%Q lower_median float_of_decimal "August_2019.tif"
              "May_2019.tif" "Aug_May2019" "thres2019" "Reclass_thre2019"
              "thres_fin2019" "ero2019" "ZonalSt_ero2019" (PyStr "abc")
              (survey [[Some 1%Q]] [[Some 0%Q]])) as (_ & _ & _ & Hbad & _).
  destruct (run_outcome 1%Q lower_median float_of_decimal "August_2019.tif"
              "May_2019.tif" "Aug_May2019" "thres2019" "Reclass_thre2019"
              "thres_fin2019" "ero2019" "ZonalSt_ero2019" (PyStr "0.2")
              (survey [[Some 1%Q]] [[Some 0%Q]])) as (_ & _ & _ & _ & Hgood).
  split.
  - exact (Hbad [[Some 1%Q]] [[Some 0%Q]] "abc"%string eq_refl eq_refl eq_refl eq_refl).
  - apply (Hgood [[Some 1%Q]] [[Some 0%Q]] (2 # 10)); [reflexivity | reflexivity |].
    right. exists "0.2"%string. split; reflexivity.
Defined.
